(** * Perundhu OCR service: result normalisation and Tamil text correction

    A shallow embedding of [ocr-service/main.py]: the correction table
    [TAMIL_CORRECTIONS], [correct_tamil_text], [parse_ocr_result] and the two
    extraction endpoints, followed by the properties of the service's
    specification that concern them.

    Conventions of the embedding:
    - a Python [str] is the list of its Unicode code points ([list N]);
    - a Python [float] is an IEEE-754 binary64 number ([PrimFloat.float]);
    - code that may raise runs in the error monad [Py];
    - a [dict] whose iteration order matters is an association list in
      insertion order;
    - calls to the logger are left out: they do not change a result;
    - [int()] on a polygon coordinate is first taken as defined everywhere
      and the response as the one the route prepares; the module [Full]
      then lets [int()] raise and the serialisation of the model fail. *)

From Stdlib Require Import PrimFloat.
From Stdlib Require Uint63.
From Stdlib Require Import List Bool Arith NArith ZArith Lia.
Import ListNotations.

Set Implicit Arguments.
Set Warnings "-inexact-float".

(** ** Python strings *)

Module PyStr.

Definition str := list N.

(** [a == b] on strings. *)
Fixpoint eqb (a b : str) : bool :=
  match a, b with
  | [], [] => true
  | x :: a', y :: b' => N.eqb x y && eqb a' b'
  | _, _ => false
  end.

(** [s.startswith(p)]. *)
Fixpoint startswith (p s : str) : bool :=
  match p, s with
  | [], _ => true
  | _ :: _, [] => false
  | x :: p', y :: s' => N.eqb x y && startswith p' s'
  end.

(** [p in s]: [p] occurs in [s] as a contiguous substring. *)
Fixpoint contains (p s : str) : bool :=
  startswith p s ||
  match s with
  | [] => false
  | _ :: s' => contains p s'
  end.

(** The scan of [s.replace(old, new)] for a non-empty [old]: left to right,
    occurrences do not overlap.  [skip] counts the characters of the
    occurrence just replaced that are still to be consumed. *)
Fixpoint replace_scan (old new : str) (skip : nat) (s : str) : str :=
  match s with
  | [] => []
  | c :: s' =>
      match skip with
      | S k => replace_scan old new k s'
      | O =>
          if startswith old s
          then new ++ replace_scan old new (Nat.pred (length old)) s'
          else c :: replace_scan old new O s'
      end
  end.

(** [s.replace(old, new)]: every occurrence is replaced.  For the empty
    pattern Python inserts [new] before every character and at the end. *)
Definition replace (old new s : str) : str :=
  match old with
  | [] => new ++ flat_map (fun c => c :: new) s
  | _ :: _ => replace_scan old new O s
  end.

(** [c.isspace()]: the code points Python counts as whitespace. *)
Definition isspace (c : N) : bool :=
  ((0x09 <=? c) && (c <=? 0x0d) ||
   (0x1c <=? c) && (c <=? 0x20) ||
   (c =? 0x85) || (c =? 0xa0) || (c =? 0x1680) ||
   (0x2000 <=? c) && (c <=? 0x200a) ||
   (c =? 0x2028) || (c =? 0x2029) || (c =? 0x202f) ||
   (c =? 0x205f) || (c =? 0x3000))%N.

Fixpoint lstrip (s : str) : str :=
  match s with
  | [] => []
  | c :: s' => if isspace c then lstrip s' else s
  end.

Definition rstrip (s : str) : str := rev (lstrip (rev s)).

(** [s.strip()]. *)
Definition strip (s : str) : str := rstrip (lstrip s).

(** Truth value of a string: non-empty. *)
Definition truthy (s : str) : bool :=
  match s with
  | [] => false
  | _ :: _ => true
  end.

(** [sep.join(l)]. *)
Fixpoint join (sep : str) (l : list str) : str :=
  match l with
  | [] => []
  | [x] => x
  | x :: l' => x ++ sep ++ join sep l'
  end.

(** ["\n"] *)
Definition newline : str := [0x0a%N].

End PyStr.

Import PyStr.

(** ** The correction table *)

Open Scope N_scope.

(** The pairs of the dict display [TAMIL_CORRECTIONS = { ... }], as written. *)
Definition TAMIL_CORRECTIONS_literal : list (str * str) :=
  [
  (* 'தம்ழ்நாடு': 'தமிழ்நாடு' *)
  ([0xba4; 0xbae; 0xbcd; 0xbb4; 0xbcd; 0xba8; 0xbbe; 0xb9f; 0xbc1],
   [0xba4; 0xbae; 0xbbf; 0xbb4; 0xbcd; 0xba8; 0xbbe; 0xb9f; 0xbc1]);
  (* 'தம்ழ்': 'தமிழ்' *)
  ([0xba4; 0xbae; 0xbcd; 0xbb4; 0xbcd],
   [0xba4; 0xbae; 0xbbf; 0xbb4; 0xbcd]);
  (* 'கருச்சி': 'திருச்சி' *)
  ([0xb95; 0xbb0; 0xbc1; 0xb9a; 0xbcd; 0xb9a; 0xbbf],
   [0xba4; 0xbbf; 0xbb0; 0xbc1; 0xb9a; 0xbcd; 0xb9a; 0xbbf]);
  (* 'தஇிறுச்சி': 'திருச்சி' *)
  ([0xba4; 0xb87; 0xbbf; 0xbb1; 0xbc1; 0xb9a; 0xbcd; 0xb9a; 0xbbf],
   [0xba4; 0xbbf; 0xbb0; 0xbc1; 0xb9a; 0xbcd; 0xb9a; 0xbbf]);
  (* 'தஇருச்சி': 'திருச்சி' *)
  ([0xba4; 0xb87; 0xbb0; 0xbc1; 0xb9a; 0xbcd; 0xb9a; 0xbbf],
   [0xba4; 0xbbf; 0xbb0; 0xbc1; 0xb9a; 0xbcd; 0xb9a; 0xbbf]);
  (* 'திருச்ச': 'திருச்சி' *)
  ([0xba4; 0xbbf; 0xbb0; 0xbc1; 0xb9a; 0xbcd; 0xb9a],
   [0xba4; 0xbbf; 0xbb0; 0xbc1; 0xb9a; 0xbcd; 0xb9a; 0xbbf]);
  (* 'பெங்களுூரு': 'பெங்களூரு' *)
  ([0xbaa; 0xbc6; 0xb99; 0xbcd; 0xb95; 0xbb3; 0xbc1; 0xbc2;
    0xbb0; 0xbc1],
   [0xbaa; 0xbc6; 0xb99; 0xbcd; 0xb95; 0xbb3; 0xbc2; 0xbb0; 0xbc1]);
  (* 'பெங்களூ®ரு': 'பெங்களூரு' *)
  ([0xbaa; 0xbc6; 0xb99; 0xbcd; 0xb95; 0xbb3; 0xbc2; 0xae; 0xbb0;
    0xbc1],
   [0xbaa; 0xbc6; 0xb99; 0xbcd; 0xb95; 0xbb3; 0xbc2; 0xbb0; 0xbc1]);
  (* 'மஙுரை': 'மதுரை' *)
  ([0xbae; 0xb99; 0xbc1; 0xbb0; 0xbc8],
   [0xbae; 0xba4; 0xbc1; 0xbb0; 0xbc8]);
  (* 'மாதுரை': 'மதுரை' *)
  ([0xbae; 0xbbe; 0xba4; 0xbc1; 0xbb0; 0xbc8],
   [0xbae; 0xba4; 0xbc1; 0xbb0; 0xbc8]);
  (* 'Lமரை': 'மதுரை' *)
  ([0x4c; 0xbae; 0xbb0; 0xbc8],
   [0xbae; 0xba4; 0xbc1; 0xbb0; 0xbc8]);
  (* 'Lமகரை': 'மதுரை' *)
  ([0x4c; 0xbae; 0xb95; 0xbb0; 0xbc8],
   [0xbae; 0xba4; 0xbc1; 0xbb0; 0xbc8]);
  (* 'சலம்': 'சேலம்' *)
  ([0xb9a; 0xbb2; 0xbae; 0xbcd],
   [0xb9a; 0xbc7; 0xbb2; 0xbae; 0xbcd]);
  (* 'ும்பகொணம்': 'கும்பகோணம்' *)
  ([0xbc1; 0xbae; 0xbcd; 0xbaa; 0xb95; 0xbca; 0xba3; 0xbae; 0xbcd],
   [0xb95; 0xbc1; 0xbae; 0xbcd; 0xbaa; 0xb95; 0xbcb; 0xba3;
    0xbae; 0xbcd]);
  (* 'கும்பகொணம்': 'கும்பகோணம்' *)
  ([0xb95; 0xbc1; 0xbae; 0xbcd; 0xbaa; 0xb95; 0xbca; 0xba3;
    0xbae; 0xbcd],
   [0xb95; 0xbc1; 0xbae; 0xbcd; 0xbaa; 0xb95; 0xbcb; 0xba3;
    0xbae; 0xbcd]);
  (* 'ஃம்பகொணம்': 'கும்பகோணம்' *)
  ([0xb83; 0xbae; 0xbcd; 0xbaa; 0xb95; 0xbca; 0xba3; 0xbae; 0xbcd],
   [0xb95; 0xbc1; 0xbae; 0xbcd; 0xbaa; 0xb95; 0xbcb; 0xba3;
    0xbae; 0xbcd]);
  (* 'காயம்புத்கூார்': 'கோயம்புத்தூர்' *)
  ([0xb95; 0xbbe; 0xbaf; 0xbae; 0xbcd; 0xbaa; 0xbc1; 0xba4;
    0xbcd; 0xb95; 0xbc2; 0xbbe; 0xbb0; 0xbcd],
   [0xb95; 0xbcb; 0xbaf; 0xbae; 0xbcd; 0xbaa; 0xbc1; 0xba4;
    0xbcd; 0xba4; 0xbc2; 0xbb0; 0xbcd]);
  (* 'காயம்புத்கூர்': 'கோயம்புத்தூர்' *)
  ([0xb95; 0xbbe; 0xbaf; 0xbae; 0xbcd; 0xbaa; 0xbc1; 0xba4;
    0xbcd; 0xb95; 0xbc2; 0xbb0; 0xbcd],
   [0xb95; 0xbcb; 0xbaf; 0xbae; 0xbcd; 0xbaa; 0xbc1; 0xba4;
    0xbcd; 0xba4; 0xbc2; 0xbb0; 0xbcd]);
  (* 'கிகசசெந்கார்': 'திருச்செந்தூர்' *)
  ([0xb95; 0xbbf; 0xb95; 0xb9a; 0xb9a; 0xbc6; 0xba8; 0xbcd;
    0xb95; 0xbbe; 0xbb0; 0xbcd],
   [0xba4; 0xbbf; 0xbb0; 0xbc1; 0xb9a; 0xbcd; 0xb9a; 0xbc6;
    0xba8; 0xbcd; 0xba4; 0xbc2; 0xbb0; 0xbcd]);
  (* 'கிறுச்செந்கூர்': 'திருச்செந்தூர்' *)
  ([0xb95; 0xbbf; 0xbb1; 0xbc1; 0xb9a; 0xbcd; 0xb9a; 0xbc6;
    0xba8; 0xbcd; 0xb95; 0xbc2; 0xbb0; 0xbcd],
   [0xba4; 0xbbf; 0xbb0; 0xbc1; 0xb9a; 0xbcd; 0xb9a; 0xbc6;
    0xba8; 0xbcd; 0xba4; 0xbc2; 0xbb0; 0xbcd]);
  (* 'திருநெல்வெலி': 'திருநெல்வேலி' *)
  ([0xba4; 0xbbf; 0xbb0; 0xbc1; 0xba8; 0xbc6; 0xbb2; 0xbcd;
    0xbb5; 0xbc6; 0xbb2; 0xbbf],
   [0xba4; 0xbbf; 0xbb0; 0xbc1; 0xba8; 0xbc6; 0xbb2; 0xbcd;
    0xbb5; 0xbc7; 0xbb2; 0xbbf]);
  (* 'கன்னியாகுமரி': 'கன்னியாகுமரி' *)
  ([0xb95; 0xba9; 0xbcd; 0xba9; 0xbbf; 0xbaf; 0xbbe; 0xb95;
    0xbc1; 0xbae; 0xbb0; 0xbbf],
   [0xb95; 0xba9; 0xbcd; 0xba9; 0xbbf; 0xbaf; 0xbbe; 0xb95;
    0xbc1; 0xbae; 0xbb0; 0xbbf]);
  (* 'Bறபரம': 'தாராபுரம்' *)
  ([0x42; 0xbb1; 0xbaa; 0xbb0; 0xbae],
   [0xba4; 0xbbe; 0xbb0; 0xbbe; 0xbaa; 0xbc1; 0xbb0; 0xbae; 0xbcd]);
  (* 'Bாறாபுரம்': 'தாராபுரம்' *)
  ([0x42; 0xbbe; 0xbb1; 0xbbe; 0xbaa; 0xbc1; 0xbb0; 0xbae; 0xbcd],
   [0xba4; 0xbbe; 0xbb0; 0xbbe; 0xbaa; 0xbc1; 0xbb0; 0xbae; 0xbcd]);
  (* 'ாறாபுரம்': 'தாராபுரம்' *)
  ([0xbbe; 0xbb1; 0xbbe; 0xbaa; 0xbc1; 0xbb0; 0xbae; 0xbcd],
   [0xba4; 0xbbe; 0xbb0; 0xbbe; 0xbaa; 0xbc1; 0xbb0; 0xbae; 0xbcd]);
  (* 'கககுக்குiட': 'தூத்துக்குடி' *)
  ([0xb95; 0xb95; 0xb95; 0xbc1; 0xb95; 0xbcd; 0xb95; 0xbc1; 0x69;
    0xb9f],
   [0xba4; 0xbc2; 0xba4; 0xbcd; 0xba4; 0xbc1; 0xb95; 0xbcd;
    0xb95; 0xbc1; 0xb9f; 0xbbf]);
  (* 'BBகக19': 'தூத்துக்குடி' *)
  ([0x42; 0x42; 0xb95; 0xb95; 0x31; 0x39],
   [0xba4; 0xbc2; 0xba4; 0xbcd; 0xba4; 0xbc1; 0xb95; 0xbcd;
    0xb95; 0xbc1; 0xb9f; 0xbbf]);
  (* 'ஒent': 'ஒசூர்' *)
  ([0xb92; 0x65; 0x6e; 0x74],
   [0xb92; 0xb9a; 0xbc2; 0xbb0; 0xbcd]);
  (* 'இராமேஸ்வேம்': 'இராமேஸ்வரம்' *)
  ([0xb87; 0xbb0; 0xbbe; 0xbae; 0xbc7; 0xbb8; 0xbcd; 0xbb5;
    0xbc7; 0xbae; 0xbcd],
   [0xb87; 0xbb0; 0xbbe; 0xbae; 0xbc7; 0xbb8; 0xbcd; 0xbb5;
    0xbb0; 0xbae; 0xbcd]);
  (* 'பேதுந்து': 'பேருந்து' *)
  ([0xbaa; 0xbc7; 0xba4; 0xbc1; 0xba8; 0xbcd; 0xba4; 0xbc1],
   [0xbaa; 0xbc7; 0xbb0; 0xbc1; 0xba8; 0xbcd; 0xba4; 0xbc1]);
  (* 'பேதற்துகள்': 'பேருந்துகள்' *)
  ([0xbaa; 0xbc7; 0xba4; 0xbb1; 0xbcd; 0xba4; 0xbc1; 0xb95;
    0xbb3; 0xbcd],
   [0xbaa; 0xbc7; 0xbb0; 0xbc1; 0xba8; 0xbcd; 0xba4; 0xbc1;
    0xb95; 0xbb3; 0xbcd]);
  (* 'பேதுந்துகள்': 'பேருந்துகள்' *)
  ([0xbaa; 0xbc7; 0xba4; 0xbc1; 0xba8; 0xbcd; 0xba4; 0xbc1;
    0xb95; 0xbb3; 0xbcd],
   [0xbaa; 0xbc7; 0xbb0; 0xbc1; 0xba8; 0xbcd; 0xba4; 0xbc1;
    0xb95; 0xbb3; 0xbcd]);
  (* 'நலையைம்': 'நிலையம்' *)
  ([0xba8; 0xbb2; 0xbc8; 0xbaf; 0xbc8; 0xbae; 0xbcd],
   [0xba8; 0xbbf; 0xbb2; 0xbc8; 0xbaf; 0xbae; 0xbcd]);
  (* 'தெொலைதூமர்': 'தொலைதூரம்' *)
  ([0xba4; 0xbc6; 0xbca; 0xbb2; 0xbc8; 0xba4; 0xbc2; 0xbae;
    0xbb0; 0xbcd],
   [0xba4; 0xbca; 0xbb2; 0xbc8; 0xba4; 0xbc2; 0xbb0; 0xbae; 0xbcd]);
  (* 'போக்குவரத்துக்': 'போக்குவரத்துக்' *)
  ([0xbaa; 0xbcb; 0xb95; 0xbcd; 0xb95; 0xbc1; 0xbb5; 0xbb0;
    0xba4; 0xbcd; 0xba4; 0xbc1; 0xb95; 0xbcd],
   [0xbaa; 0xbcb; 0xb95; 0xbcd; 0xb95; 0xbc1; 0xbb5; 0xbb0;
    0xba4; 0xbcd; 0xba4; 0xbc1; 0xb95; 0xbcd]);
  (* 'கழகம்': 'கழகம்' *)
  ([0xb95; 0xbb4; 0xb95; 0xbae; 0xbcd],
   [0xb95; 0xbb4; 0xb95; 0xbae; 0xbcd]);
  (* 'அரசப்': 'அரசு' *)
  ([0xb85; 0xbb0; 0xb9a; 0xbaa; 0xbcd],
   [0xb85; 0xbb0; 0xb9a; 0xbc1]);
  (* '@tristcl': '' *)
  ([0x40; 0x74; 0x72; 0x69; 0x73; 0x74; 0x63; 0x6c],
   []);
  (* '@tnstcl': '' *)
  ([0x40; 0x74; 0x6e; 0x73; 0x74; 0x63; 0x6c],
   []);
  (* '@tr': '' *)
  ([0x40; 0x74; 0x72],
   []);
  (* '@tnetohlaoin': '' *)
  ([0x40; 0x74; 0x6e; 0x65; 0x74; 0x6f; 0x68; 0x6c; 0x61; 0x6f;
    0x69; 0x6e],
   []);
  (* '@bstcbloelim': '' *)
  ([0x40; 0x62; 0x73; 0x74; 0x63; 0x62; 0x6c; 0x6f; 0x65; 0x6c;
    0x69; 0x6d],
   []);
  (* 'tcblog.in': '' *)
  ([0x74; 0x63; 0x62; 0x6c; 0x6f; 0x67; 0x2e; 0x69; 0x6e],
   []);
  (* 'stcblog': '' *)
  ([0x73; 0x74; 0x63; 0x62; 0x6c; 0x6f; 0x67],
   []);
  (* 'tnstcbl': '' *)
  ([0x74; 0x6e; 0x73; 0x74; 0x63; 0x62; 0x6c],
   []);
  (* 'bg-in': '' *)
  ([0x62; 0x67; 0x2d; 0x69; 0x6e],
   []);
  (* 'log.in': '' *)
  ([0x6c; 0x6f; 0x67; 0x2e; 0x69; 0x6e],
   []);
  (* 'astcbloLin': '' *)
  ([0x61; 0x73; 0x74; 0x63; 0x62; 0x6c; 0x6f; 0x4c; 0x69; 0x6e],
   []);
  (* 'ccblog.in': '' *)
  ([0x63; 0x63; 0x62; 0x6c; 0x6f; 0x67; 0x2e; 0x69; 0x6e],
   []);
  (* 'gOhgah': '' *)
  ([0x67; 0x4f; 0x68; 0x67; 0x61; 0x68],
   []);
  (* 'Lin': '' *)
  ([0x4c; 0x69; 0x6e],
   []);
  (* 'LDCU': '' *)
  ([0x4c; 0x44; 0x43; 0x55],
   []);
  (* 'LC': '' *)
  ([0x4c; 0x43],
   []);
  (* 'கa்': 'கரூர்' *)
  ([0xb95; 0x61; 0xbcd],
   [0xb95; 0xbb0; 0xbc2; 0xbb0; 0xbcd]);
  (* 'கCt': 'கரூர்' *)
  ([0xb95; 0x43; 0x74],
   [0xb95; 0xbb0; 0xbc2; 0xbb0; 0xbcd]);
  (* 'Lர': 'மதுரை' *)
  ([0x4c; 0xbb0],
   [0xbae; 0xba4; 0xbc1; 0xbb0; 0xbc8])
  ].

Close Scope N_scope.

(** [d[k] = v] on an insertion-ordered dict: an existing key keeps its place
    and takes the new value, a new key goes to the end. *)
Fixpoint dict_setitem (d : list (str * str)) (k v : str) : list (str * str) :=
  match d with
  | [] => [(k, v)]
  | (k', v') :: d' =>
      if PyStr.eqb k' k then (k', v) :: d' else (k', v') :: dict_setitem d' k v
  end.

(** The dict built by the display, in iteration order ([.items()]). *)
Definition TAMIL_CORRECTIONS : list (str * str) :=
  fold_left (fun d kv => dict_setitem d (fst kv) (snd kv))
            TAMIL_CORRECTIONS_literal [].

(** One turn of the loop of [correct_tamil_text]. *)
Definition correct_step (corrected : str) (rule : str * str) : str :=
  let (wrong, correct) := rule in
  if contains wrong corrected then replace wrong correct corrected
  else corrected.

(** [correct_tamil_text(text)] *)
Definition correct_tamil_text (text : str) : str :=
  if negb (truthy text) then text
  else fold_left correct_step TAMIL_CORRECTIONS text.

(** ** Exceptions *)

(** A raised object: an instance of [Exception] (what [except Exception]
    catches), or of [BaseException] only (cancellation, interpreter exit).
    The argument is [str(e)]. *)
Inductive exn : Type :=
| Exception (msg : str)
| BaseException (msg : str).

(** A computation that returns a value or raises. *)
Inductive Py (A : Type) : Type :=
| Return (a : A)
| Raise (e : exn).

Arguments Return {A} a.
Arguments Raise {A} e.

Definition bind {A B : Type} (m : Py A) (k : A -> Py B) : Py B :=
  match m with
  | Return a => k a
  | Raise e => Raise e
  end.

Declare Scope py_scope.
Delimit Scope py_scope with py.
Notation "x <- m ;; k" := (bind m (fun x => k))
  (at level 61, m at next level, right associativity) : py_scope.
Notation "m ;;; k" := (bind m (fun _ => k))
  (at level 61, right associativity) : py_scope.
Open Scope py_scope.

(** [try: body / except Exception as e: handler(str(e))] *)
Definition try_except {A : Type} (body : Py A) (handler : str -> Py A)
  : Py A :=
  match body with
  | Return a => Return a
  | Raise (Exception msg) => handler msg
  | Raise (BaseException msg) => Raise (BaseException msg)
  end.

(** A [for] loop over [l] threading the loop's variables. *)
Fixpoint for_each {A S : Type} (body : S -> A -> Py S) (l : list A) (st : S)
  : Py S :=
  match l with
  | [] => Return st
  | x :: l' => st' <- body st x ;; for_each body l' st'
  end.

(** [enumerate(l)] *)
Definition enumerate {A : Type} (l : list A) : list (nat * A) :=
  combine (seq 0 (length l)) l.

(** ["list index out of range"] *)
Definition IndexError : exn :=
  Exception (map N.of_nat
    [108; 105; 115; 116; 32; 105; 110; 100; 101; 120; 32; 111; 117; 116; 32;
     111; 102; 32; 114; 97; 110; 103; 101]).

(** [l[i]] for [i >= 0] *)
Definition getitem {A : Type} (l : list A) (i : nat) : Py A :=
  match nth_error l i with
  | Some x => Return x
  | None => Raise IndexError
  end.

(** [d.get(key, default)], the field being [None] when the key is absent. *)
Definition dict_get {A : Type} (field : option A) (default : A) : A :=
  match field with
  | Some v => v
  | None => default
  end.

(** ** Numbers *)

(** A Python number: [int] or [float]. *)
Inductive number : Type :=
| Int (z : Z)
| Float (f : float).

(** [float(z)] for [0 <= z < 2^63], which covers every length or counter of a
    list held in memory. *)
Definition float_of_int (z : Z) : float :=
  PrimFloat.of_uint63 (Uint63.of_Z z).

(** [float(x)] *)
Definition to_float (x : number) : float :=
  match x with
  | Int z => float_of_int z
  | Float f => f
  end.

(** [x + c] for a float [c]: an [int] operand is converted first. *)
Definition add_float (x : number) (c : float) : number :=
  Float (PrimFloat.add (to_float x) c).

(** [x / n] (true division) for a non-zero [int] [n]. *)
Definition truediv (x : number) (n : Z) : number :=
  Float (PrimFloat.div (to_float x) (float_of_int n)).

(** ** Result normalisation *)

Module Detail.
(** One entry of [details]: the dict with keys ["text"], ["original_text"],
    ["confidence"] and ["bbox"]. *)
Record t : Type := Build
  { text : str;
    original_text : option str;
    confidence : float;
    bbox : list (list Z) }.
End Detail.

Section Normalizer.

(** A coordinate of a bounding polygon and [int(coord)], here defined on
    every coordinate ([Full.region_body] lets it raise). *)
Variable coord : Type.
Variable int : coord -> Z.

(** [round(x, 4)] on floats. *)
Variable round4 : float -> float.

(** [rec_polys[i].tolist()]: a list of points, each a list of coordinates. *)
Definition polygon : Type := list (list coord).

(** One page of the engine's output; a field is [None] when the page has no
    such key. *)
Record page_result : Type :=
  { rec_texts : option (list str);
    rec_scores : option (list float);
    rec_polys : option (list polygon) }.

(** The variables of [parse_ocr_result] that the loop updates. *)
Record locals : Type :=
  { lines : list str;
    details : list Detail.t;
    total_confidence : number;
    count : Z }.

(** The body of [for i, text in enumerate(rec_texts)]. *)
Definition region_body (scores : list float) (polys : list polygon)
           (st : locals) (it : nat * str) : Py locals :=
  let (i, text) := it in
  confidence <- (if i <? length scores then getitem scores i
                 else Return PrimFloat.zero) ;;
  bbox <- (if i <? length polys then getitem polys i else Return []) ;;
  let corrected_text := correct_tamil_text text in
  if truthy (strip corrected_text) then
    Return
      {| lines := lines st ++ [corrected_text];
         details := details st ++
           [ {| Detail.text := corrected_text;
                Detail.original_text :=
                  if negb (PyStr.eqb text corrected_text) then Some text
                  else None;
                Detail.confidence := round4 confidence;
                Detail.bbox :=
                  match bbox with
                  | [] => []
                  | _ :: _ => map (map int) bbox
                  end |} ];
         total_confidence := add_float (total_confidence st) confidence;
         count := count st + 1 |}
  else Return st.

(** [parse_ocr_result(result)]; [result] is [None] or a list of pages. *)
Definition parse_ocr_result (result : option (list page_result))
  : Py (str * list str * number * list Detail.t) :=
  let init :=
    {| lines := []; details := []; total_confidence := Int 0; count := 0 |} in
  st <- match result with
        | Some (page :: _) =>
            let texts := dict_get (rec_texts page) [] in
            let scores := dict_get (rec_scores page) [] in
            let polys := dict_get (rec_polys page) [] in
            for_each (region_body scores polys) (enumerate texts) init
        | _ => Return init
        end ;;
  let avg_confidence :=
    if (0 <? count st)%Z then truediv (total_confidence st) (count st)
    else Int 0 in
  let extracted_text := join newline (lines st) in
  Return (extracted_text, lines st, avg_confidence, details st).

End Normalizer.

(** ** The HTTP surface *)

Module OCRResult.
(** The response model [OCRResult]. *)
Record t : Type := Build
  { success : bool;
    extracted_text : str;
    lines : list str;
    confidence : float;
    details : list Detail.t;
    error : option str }.
End OCRResult.

(** What the framework sends for a handler that returned [body]. *)
Record HttpResponse : Type :=
  { status : Z;
    body : OCRResult.t }.

(** [@app.post(..., response_model=OCRResult)]: the response the route
    prepares for a returned model has status 200 and the model as body
    (whether it can be serialised and sent is [Full.respond]'s matter); an
    exception that leaves the handler is not the handler's to answer. *)
Definition app_post (handler : Py OCRResult.t) : Py HttpResponse :=
  r <- handler ;; Return {| status := 200; body := r |}.

(** The external collaborators of the handlers: the upload, the image
    library, the array conversion, the HTTP client and the recognition
    engine.  Each call returns or raises. *)
Record Externals (coord : Type) : Type :=
  { UploadFile : Type;
    bytes : Type;
    Image : Type;
    ndarray : Type;
    Response : Type;
    (** [await file.read()] *)
    file_read : UploadFile -> Py bytes;
    (** [Image.open(io.BytesIO(contents))] *)
    Image_open : bytes -> Py Image;
    (** [image.mode == 'RGB'] *)
    mode_is_RGB : Image -> bool;
    (** [image.convert('RGB')] *)
    convert_RGB : Image -> Py Image;
    (** [np.array(image)] *)
    np_array : Image -> Py ndarray;
    (** [ocr.predict(image_np)] *)
    ocr_predict : ndarray -> Py (option (list (page_result coord)));
    (** [import httpx] *)
    import_httpx : Py unit;
    (** [await client.get(url)] in a client with a 30 s timeout *)
    client_get : str -> Py Response;
    (** [response.raise_for_status()] *)
    raise_for_status : Response -> Py unit;
    (** [response.content] *)
    response_content : Response -> bytes }.

Section Endpoints.

Variable coord : Type.
Variable int : coord -> Z.
Variable round4 : float -> float.
Variable ext : Externals coord.

(** [round(avg_confidence, 4)]: an [int] is returned as it is. *)
Definition round_number (x : number) : number :=
  match x with
  | Int z => Int z
  | Float f => Float (round4 f)
  end.

(** [if image.mode != 'RGB': image = image.convert('RGB')] *)
Definition to_rgb (image : Image ext) : Py (Image ext) :=
  if negb (mode_is_RGB ext image) then convert_RGB ext image
  else Return image.

(** The lines both [try] blocks share, from the image bytes on. *)
Definition recognise (contents : bytes ext) : Py OCRResult.t :=
  image <- Image_open ext contents ;;
  image <- to_rgb image ;;
  image_np <- np_array ext image ;;
  result <- ocr_predict ext image_np ;;
  r <- parse_ocr_result int round4 result ;;
  let '(extracted_text, lines, avg_confidence, details) := r in
  Return
    {| OCRResult.success := true;
       OCRResult.extracted_text := extracted_text;
       OCRResult.lines := lines;
       OCRResult.confidence := to_float (round_number avg_confidence);
       OCRResult.details := details;
       OCRResult.error := None |}.

(** The [except Exception as e] branch of both handlers, [msg] being
    [str(e)]. *)
Definition failure (msg : str) : Py OCRResult.t :=
  Return
    {| OCRResult.success := false;
       OCRResult.extracted_text := [];
       OCRResult.lines := [];
       OCRResult.confidence := to_float (Int 0);
       OCRResult.details := [];
       OCRResult.error := Some msg |}.

(** The [try] block of [extract_text]. *)
Definition extract_text_try (file : UploadFile ext) : Py OCRResult.t :=
  contents <- file_read ext file ;;
  recognise contents.

(** [POST /extract] *)
Definition extract_text (file : UploadFile ext) : Py HttpResponse :=
  app_post (try_except (extract_text_try file) failure).

(** The [try] block of [extract_from_url]. *)
Definition extract_from_url_try (url : str) : Py OCRResult.t :=
  import_httpx ext ;;;
  response <- client_get ext url ;;
  raise_for_status ext response ;;;
  recognise (response_content ext response).

(** [POST /extract-url] *)
Definition extract_from_url (url : str) : Py HttpResponse :=
  app_post (try_except (extract_from_url_try url) failure).

(** A request to one of the two extraction routes. *)
Inductive request : Type :=
| PostExtract (file : UploadFile ext)
| PostExtractUrl (url : str).

Definition serve (req : request) : Py HttpResponse :=
  match req with
  | PostExtract file => extract_text file
  | PostExtractUrl url => extract_from_url url
  end.

End Endpoints.
(** ** Notions of the specification *)

(** The correction of 4.1 in the specification's words: every rule of the
    table, in its declaration order, applied as a global substring
    replacement to the text the earlier rules produced. *)
Definition apply_rules (table : list (str * str)) (text : str) : str :=
  fold_left (fun s rule => replace (fst rule) (snd rule) s) table text.

(** A string that holds a character other than whitespace. *)
Definition has_visible (s : str) : bool :=
  existsb (fun c => negb (isspace c)) s.

(** [s.endswith("\n")] *)
Definition ends_with_newline (s : str) : bool :=
  match rev s with
  | c :: _ => N.eqb c 0x0a
  | [] => false
  end.

(** The mean of 4.2: the confidences summed from [0] in order, divided by
    their number; [0] when there is none. *)
Definition mean (confs : list float) : number :=
  match confs with
  | [] => Int 0
  | _ :: _ =>
      Float (PrimFloat.div (fold_left PrimFloat.add confs PrimFloat.zero)
                           (float_of_int (Z.of_nat (length confs))))
  end.

Section Regions.

Variable coord : Type.

(** A detected region: the text at one index of [rec_texts] with the
    confidence and polygon the loop pairs with it. *)
Record region : Type :=
  { region_text : str;
    region_confidence : float;
    region_bbox : polygon coord }.

Definition region_at (scores : list float) (polys : list (polygon coord))
           (it : nat * str) : region :=
  {| region_text := snd it;
     region_confidence := nth (fst it) scores PrimFloat.zero;
     region_bbox := nth (fst it) polys [] |}.

(** The regions of the page [parse_ocr_result] consults, in engine order. *)
Definition regions (result : option (list (page_result coord)))
  : list region :=
  match result with
  | Some (page :: _) =>
      map (region_at (dict_get (rec_scores page) [])
                     (dict_get (rec_polys page) []))
          (enumerate (dict_get (rec_texts page) []))
  | _ => []
  end.

Variable int : coord -> Z.
Variable round4 : float -> float.

(** The text of a region after correction. *)
Definition corrected (r : region) : str :=
  correct_tamil_text (region_text r).

(** A region whose corrected text holds a character other than
    whitespace. *)
Definition retained (r : region) : bool := has_visible (corrected r).

(** The detail record of a region. *)
Definition detail_of (r : region) : Detail.t :=
  {| Detail.text := corrected r;
     Detail.original_text :=
       if PyStr.eqb (region_text r) (corrected r) then None
       else Some (region_text r);
     Detail.confidence := round4 (region_confidence r);
     Detail.bbox := map (map int) (region_bbox r) |}.

(** The loop's variables after the regions [rs] have all been kept. *)
Definition keep_all (st : locals) (rs : list region) : locals :=
  {| lines := lines st ++ map corrected rs;
     details := details st ++ map detail_of rs;
     total_confidence :=
       fold_left add_float (map region_confidence rs) (total_confidence st);
     count := count st + Z.of_nat (length rs) |}.

End Regions.

Arguments region_text {coord} r.
Arguments region_confidence {coord} r.
Arguments region_bbox {coord} r.
Arguments corrected {coord} r.
Arguments retained {coord} r.

(** ** Sample texts *)

Open Scope N_scope.

(** ['திருச்ச'], a misreading listed in the table. *)
Definition tiruchi_misread : str :=
  [0xba4; 0xbbf; 0xbb0; 0xbc1; 0xb9a; 0xbcd; 0xb9a].

(** ['திருச்சி'], the city name the table maps four misreadings to. *)
Definition tiruchi : str :=
  [0xba4; 0xbbf; 0xbb0; 0xbc1; 0xb9a; 0xbcd; 0xb9a; 0xbbf].

(** ['திருச்சிி']: the city name with its last vowel sign doubled. *)
Definition tiruchi_doubled : str :=
  [0xba4; 0xbbf; 0xbb0; 0xbc1; 0xb9a; 0xbcd; 0xb9a; 0xbbf; 0xbbf].

(** ['கருச்சி'], another misreading of the same name. *)
Definition karuchi : str :=
  [0xb95; 0xbb0; 0xbc1; 0xb9a; 0xbcd; 0xb9a; 0xbbf].

(** ['தம்ழ்நாடு'] *)
Definition tamilnadu_misread : str :=
  [0xba4; 0xbae; 0xbcd; 0xbb4; 0xbcd; 0xba8; 0xbbe; 0xb9f; 0xbc1].

(** ['தமிழ்நாடு'] *)
Definition tamilnadu : str :=
  [0xba4; 0xbae; 0xbbf; 0xbb4; 0xbcd; 0xba8; 0xbbe; 0xb9f; 0xbc1].

Close Scope N_scope.

(** ** Engine outputs used as examples *)


Section Pages.

Variable coord : Type.


(** An output of one page with one region. *)
Definition one_region (text : str) (score : float)
           (polys : option (list (polygon coord)))
  : option (list (page_result coord)) :=
  Some [ {| rec_texts := Some [text];
            rec_scores := Some [score];
            rec_polys := polys |} ].

End Pages.

(** ** Readings of the specification that the code does not meet *)

Section Readings.

Variable coord : Type.
Variable int : coord -> Z.
Variable round4 : float -> float.

(** "A line is retained iff its text is non-empty after correction", with
    non-empty read as Python reads it: the string has a character. *)
Definition retained_iff_nonempty (result : option (list (page_result coord)))
  : Prop :=
  exists extracted_text lines avg_confidence details,
    parse_ocr_result int round4 result =
      Return (extracted_text, lines, avg_confidence, details) /\
    lines = map corrected
                (filter (fun r => truthy (corrected r)) (regions result)).

(** "[extracted_text] is the lines joined by newline, with no trailing
    newline character". *)
Definition joined_without_trailing_newline
           (result : option (list (page_result coord))) : Prop :=
  exists extracted_text lines avg_confidence details,
    parse_ocr_result int round4 result =
      Return (extracted_text, lines, avg_confidence, details) /\
    extracted_text = join newline lines /\
    ends_with_newline extracted_text = false.

End Readings.

(** ** The failures of section 7 *)

Section Failures.

Variable coord : Type.
Variable ext : Externals coord.

(** From the image bytes on: decoding the image raises (opening it,
    converting it to RGB, turning it into an array), or the recognition
    call raises. *)
Inductive recognise_raises (contents : bytes ext) (e : exn) : Prop :=
| open_raises :
    Image_open ext contents = Raise e ->
    recognise_raises contents e
| convert_raises (image : Image ext) :
    Image_open ext contents = Return image ->
    to_rgb ext image = Raise e ->
    recognise_raises contents e
| array_raises (image rgb : Image ext) :
    Image_open ext contents = Return image ->
    to_rgb ext image = Return rgb ->
    np_array ext rgb = Raise e ->
    recognise_raises contents e
| predict_raises (image rgb : Image ext) (image_np : ndarray ext) :
    Image_open ext contents = Return image ->
    to_rgb ext image = Return rgb ->
    np_array ext rgb = Return image_np ->
    ocr_predict ext image_np = Raise e ->
    recognise_raises contents e.

(** Ingestion, fetching or recognition raises [e] while the request is
    handled. *)
Inductive request_raises : request ext -> exn -> Prop :=
| read_raises (file : UploadFile ext) (e : exn) :
    file_read ext file = Raise e ->
    request_raises (PostExtract ext file) e
| upload_raises (file : UploadFile ext) (contents : bytes ext) (e : exn) :
    file_read ext file = Return contents ->
    recognise_raises contents e ->
    request_raises (PostExtract ext file) e
| import_raises (url : str) (e : exn) :
    import_httpx ext = Raise e ->
    request_raises (PostExtractUrl ext url) e
| get_raises (url : str) (e : exn) :
    import_httpx ext = Return tt ->
    client_get ext url = Raise e ->
    request_raises (PostExtractUrl ext url) e
| status_raises (url : str) (response : Response ext) (e : exn) :
    import_httpx ext = Return tt ->
    client_get ext url = Return response ->
    raise_for_status ext response = Raise e ->
    request_raises (PostExtractUrl ext url) e
| fetched_raises (url : str) (response : Response ext) (e : exn) :
    import_httpx ext = Return tt ->
    client_get ext url = Return response ->
    raise_for_status ext response = Return tt ->
    recognise_raises (response_content ext response) e ->
    request_raises (PostExtractUrl ext url) e.

End Failures.

(** ["cannot identify image file"] *)
Definition cannot_identify : str :=
  map N.of_nat
    [99; 97; 110; 110; 111; 116; 32; 105; 100; 101; 110; 116; 105; 102; 121;
     32; 105; 109; 97; 103; 101; 32; 102; 105; 108; 101].

(** A world in which no uploaded or fetched bytes decode to an image. *)
Definition undecodable : Externals Z :=
  {| UploadFile := unit;
     bytes := unit;
     Image := unit;
     ndarray := unit;
     Response := unit;
     file_read := fun _ => Return tt;
     Image_open := fun _ => Raise (Exception cannot_identify);
     mode_is_RGB := fun _ => true;
     convert_RGB := fun image => Return image;
     np_array := fun _ => Return tt;
     ocr_predict := fun _ => Return (Some []);
     import_httpx := Return tt;
     client_get := fun _ => Return tt;
     raise_for_status := fun _ => Return tt;
     response_content := fun _ => tt |}.

(** ** The health probe *)

Module HealthResponse.
(** The response model [HealthResponse]. *)
Record t : Type := Build
  { status : str;
    service : str;
    languages : list str }.
End HealthResponse.

(** [GET /health] *)
Definition health_check : Py HealthResponse.t :=
  Return
    {| HealthResponse.status :=
         map N.of_nat [104; 101; 97; 108; 116; 104; 121];
       HealthResponse.service :=
         map N.of_nat [112; 97; 100; 100; 108; 101; 111; 99; 114];
       HealthResponse.languages :=
         [map N.of_nat [116; 97]; map N.of_nat [101; 110]] |}.

(** ** Further notions *)

(** A character below ['A']: a control character, a space, a digit or ASCII
    punctuation. *)
Definition below_letters (c : N) : bool := (c <? 0x41)%N.

(** A string without a newline. *)
Definition no_newline (s : str) : bool :=
  forallb (fun c => negb (N.eqb c 0x0a)) s.

(** [s.split("\n")] *)
Fixpoint split_newline (s : str) : list str :=
  match s with
  | [] => [[]]
  | c :: s' =>
      if N.eqb c 0x0a then [] :: split_newline s'
      else match split_newline s' with
           | l :: ls => (c :: l) :: ls
           | [] => [[c]]
           end
  end.

Open Scope N_scope.

(** ['தஇிறுச்சி'] *)
Definition tiruchi_misread_i : str :=
  [0xba4; 0xb87; 0xbbf; 0xbb1; 0xbc1; 0xb9a; 0xbcd; 0xb9a; 0xbbf].

(** ['தஇருச்சி'] *)
Definition tiruchi_misread_ii : str :=
  [0xba4; 0xb87; 0xbb0; 0xbc1; 0xb9a; 0xbcd; 0xb9a; 0xbbf].

(** ['கும்பகொணம்'] *)
Definition kumbakonam_misread : str :=
  [0xb95; 0xbc1; 0xbae; 0xbcd; 0xbaa; 0xb95; 0xbca; 0xba3; 0xbae; 0xbcd].

(** ['ccblog.in'] *)
Definition ccblog_in : str :=
  [0x63; 0x63; 0x62; 0x6c; 0x6f; 0x67; 0x2e; 0x69; 0x6e].

(** ['திருச்செந்தூர்'] *)
Definition tiruchendur : str :=
  [0xba4; 0xbbf; 0xbb0; 0xbc1; 0xb9a; 0xbcd; 0xb9a; 0xbc6; 0xba8; 0xbcd;
   0xba4; 0xbc2; 0xbb0; 0xbcd].

Close Scope N_scope.

(** The patterns of the table that, corrected on their own, do not come out
    as the replacement declared for them. *)
Definition overridden_patterns : list str :=
  [karuchi; tiruchi_misread_i; tiruchi_misread_ii; kumbakonam_misread;
   ccblog_in].

(** The rules of the table whose pattern, corrected on its own, does not
    come out as the rule's replacement. *)
Definition overridden_rules : list (str * str) :=
  filter (fun rule =>
            negb (PyStr.eqb (correct_tamil_text (fst rule)) (snd rule)))
         TAMIL_CORRECTIONS.

(** The rules of the table whose replacement is changed when it is corrected
    again. *)
Definition unstable_rules : list (str * str) :=
  filter (fun rule =>
            negb (PyStr.eqb (correct_tamil_text (snd rule)) (snd rule)))
         TAMIL_CORRECTIONS.

Section MorePages.

Variable coord : Type.

(** The page with [rec_scores] and [rec_polys] cut to the length of
    [rec_texts]. *)
Definition trimmed (page : page_result coord) : page_result coord :=
  let n := length (dict_get (rec_texts page) []) in
  {| rec_texts := rec_texts page;
     rec_scores := Some (firstn n (dict_get (rec_scores page) []));
     rec_polys := Some (firstn n (dict_get (rec_polys page) [])) |}.

(** The texts [parse_ocr_result] iterates over. *)
Definition texts_of (result : option (list (page_result coord))) : list str :=
  match result with
  | Some (page :: _) => dict_get (rec_texts page) []
  | _ => []
  end.

End MorePages.

Section Deliveries.

Variable coord : Type.
Variable ext : Externals coord.

(** The request reaches the shared lines with the image bytes [contents]:
    the upload was read, or the URL was fetched with a good status. *)
Inductive request_delivers : request ext -> bytes ext -> Prop :=
| upload_delivers (file : UploadFile ext) (contents : bytes ext) :
    file_read ext file = Return contents ->
    request_delivers (PostExtract ext file) contents
| fetch_delivers (url : str) (response : Response ext) :
    import_httpx ext = Return tt ->
    client_get ext url = Return response ->
    raise_for_status ext response = Return tt ->
    request_delivers (PostExtractUrl ext url) (response_content ext response).

(** The bytes decode and the engine answers [result]. *)
Inductive engine_answers (contents : bytes ext)
          (result : option (list (page_result coord))) : Prop :=
| engine_answer (image rgb : Image ext) (image_np : ndarray ext) :
    Image_open ext contents = Return image ->
    to_rgb ext image = Return rgb ->
    np_array ext rgb = Return image_np ->
    ocr_predict ext image_np = Return result ->
    engine_answers contents result.

End Deliveries.

(** ["task cancelled"] *)
Definition task_cancelled : str :=
  map N.of_nat [116; 97; 115; 107; 32; 99; 97; 110; 99; 101; 108; 108; 101;
                100].

(** A world in which every call returns and the engine reads one region,
    ['தம்ழ்நாடு'] with confidence 0.92. *)
Definition working : Externals Z :=
  {| UploadFile := unit;
     bytes := unit;
     Image := unit;
     ndarray := unit;
     Response := unit;
     file_read := fun _ => Return tt;
     Image_open := fun _ => Return tt;
     mode_is_RGB := fun _ => false;
     convert_RGB := fun image => Return image;
     np_array := fun _ => Return tt;
     ocr_predict :=
       fun _ => Return (one_region tamilnadu_misread 0.92%float None);
     import_httpx := Return tt;
     client_get := fun _ => Return tt;
     raise_for_status := fun _ => Return tt;
     response_content := fun _ => tt |}.

(** A world in which the recognition call is interrupted by an exception
    that is not an [Exception]. *)
Definition interrupted : Externals Z :=
  {| UploadFile := unit;
     bytes := unit;
     Image := unit;
     ndarray := unit;
     Response := unit;
     file_read := fun _ => Return tt;
     Image_open := fun _ => Return tt;
     mode_is_RGB := fun _ => true;
     convert_RGB := fun image => Return image;
     np_array := fun _ => Return tt;
     ocr_predict := fun _ => Raise (BaseException task_cancelled);
     import_httpx := Return tt;
     client_get := fun _ => Return tt;
     raise_for_status := fun _ => Return tt;
     response_content := fun _ => tt |}.

Section Handlers.

Variable coord : Type.
Variable int : coord -> Z.
Variable round4 : float -> float.
Variable ext : Externals coord.

(** The [try] block of the handler that serves [req]. *)
Definition try_block (req : request ext) : Py OCRResult.t :=
  match req with
  | PostExtract _ file => extract_text_try int round4 ext file
  | PostExtractUrl _ url => extract_from_url_try int round4 ext url
  end.

(** The model a handler builds from the engine's answer [result]: the
    results of [parse_ocr_result] with the mean rounded, [success] set and no
    [error]. *)
Definition success_body (result : option (list (page_result coord)))
  : OCRResult.t :=
  let rs := filter retained (regions result) in
  {| OCRResult.success := true;
     OCRResult.extracted_text := join newline (map corrected rs);
     OCRResult.lines := map corrected rs;
     OCRResult.confidence :=
       to_float (round_number round4 (mean (map region_confidence rs)));
     OCRResult.details := map (detail_of int round4) rs;
     OCRResult.error := None |}.

End Handlers.

(** * The handlers in full

    The definitions above take [int()] as defined on every coordinate and
    stop at the response the route prepares.  Here [int()] may raise, inside
    the handler's [try], and the framework's last step, the serialisation of
    the returned model, may fail. *)

Module Full.

(** [[f(x) for x in l]] for an [f] that may raise: elements are taken from
    left to right and the first exception ends the comprehension. *)
Fixpoint comprehension {A B : Type} (f : A -> Py B) (l : list A)
  : Py (list B) :=
  match l with
  | [] => Return []
  | x :: l' =>
      y <- f x ;; ys <- comprehension f l' ;; Return (y :: ys)
  end.

Section Normalizer.

Variable coord : Type.

(** [int(coord)]: raises on a coordinate with no integer value
    ([ValueError] on a NaN, [OverflowError] on an infinity). *)
Variable int : coord -> Py Z.

(** [round(x, 4)] on floats. *)
Variable round4 : float -> float.

(** The body of [for i, text in enumerate(rec_texts)]. *)
Definition region_body (scores : list float) (polys : list (polygon coord))
           (st : locals) (it : nat * str) : Py locals :=
  let (i, text) := it in
  confidence <- (if i <? length scores then getitem scores i
                 else Return PrimFloat.zero) ;;
  bbox <- (if i <? length polys then getitem polys i else Return []) ;;
  let corrected_text := correct_tamil_text text in
  if truthy (strip corrected_text) then
    ints <- match bbox with
            | [] => Return []
            | _ :: _ => comprehension (comprehension int) bbox
            end ;;
    Return
      {| lines := lines st ++ [corrected_text];
         details := details st ++
           [ {| Detail.text := corrected_text;
                Detail.original_text :=
                  if negb (PyStr.eqb text corrected_text) then Some text
                  else None;
                Detail.confidence := round4 confidence;
                Detail.bbox := ints |} ];
         total_confidence := add_float (total_confidence st) confidence;
         count := count st + 1 |}
  else Return st.

(** [parse_ocr_result(result)] *)
Definition parse_ocr_result (result : option (list (page_result coord)))
  : Py (str * list str * number * list Detail.t) :=
  let init :=
    {| lines := []; details := []; total_confidence := Int 0; count := 0 |} in
  st <- match result with
        | Some (page :: _) =>
            let texts := dict_get (rec_texts page) [] in
            let scores := dict_get (rec_scores page) [] in
            let polys := dict_get (rec_polys page) [] in
            for_each (region_body scores polys) (enumerate texts) init
        | _ => Return init
        end ;;
  let avg_confidence :=
    if (0 <? count st)%Z then truediv (total_confidence st) (count st)
    else Int 0 in
  let extracted_text := join newline (lines st) in
  Return (extracted_text, lines st, avg_confidence, details st).

(** Whether [int()] returns on [c], and what. *)
Definition converts (c : coord) : bool :=
  match int c with
  | Return _ => true
  | Raise _ => false
  end.

Definition int_value (c : coord) : Z :=
  match int c with
  | Return z => z
  | Raise _ => 0%Z
  end.

(** The polygons [parse_ocr_result] can reach. *)
Definition polys_of (result : option (list (page_result coord)))
  : list (polygon coord) :=
  match result with
  | Some (page :: _) => dict_get (rec_polys page) []
  | _ => []
  end.

End Normalizer.

(** What the client receives: the model as JSON with a status, or the
    framework's bare answer 500 when the model could not be sent. *)
Inductive reply : Type :=
| Json (status : Z) (model : OCRResult.t)
| InternalServerError.

Section Endpoints.

Variable coord : Type.
Variable int : coord -> Py Z.
Variable round4 : float -> float.
Variable ext : Externals coord.

(** Whether the framework can serialise a model to JSON. *)
Variable renders : OCRResult.t -> bool.

(** The lines both [try] blocks share, from the image bytes on. *)
Definition recognise (contents : bytes ext) : Py OCRResult.t :=
  image <- Image_open ext contents ;;
  image <- to_rgb ext image ;;
  image_np <- np_array ext image ;;
  result <- ocr_predict ext image_np ;;
  r <- parse_ocr_result int round4 result ;;
  let '(extracted_text, lines, avg_confidence, details) := r in
  Return
    {| OCRResult.success := true;
       OCRResult.extracted_text := extracted_text;
       OCRResult.lines := lines;
       OCRResult.confidence :=
         to_float (round_number round4 avg_confidence);
       OCRResult.details := details;
       OCRResult.error := None |}.

(** The [try] block of [extract_text]. *)
Definition extract_text_try (file : UploadFile ext) : Py OCRResult.t :=
  contents <- file_read ext file ;;
  recognise contents.

(** [extract_text(file)], the handler of [POST /extract]. *)
Definition extract_text (file : UploadFile ext) : Py OCRResult.t :=
  try_except (extract_text_try file) failure.

(** The [try] block of [extract_from_url]. *)
Definition extract_from_url_try (url : str) : Py OCRResult.t :=
  import_httpx ext ;;;
  response <- client_get ext url ;;
  raise_for_status ext response ;;;
  recognise (response_content ext response).

(** The [try] block of the handler that serves [req]. *)
Definition try_block (req : request ext) : Py OCRResult.t :=
  match req with
  | PostExtract _ file => extract_text_try file
  | PostExtractUrl _ url => extract_from_url_try url
  end.

(** [extract_from_url(request)], the handler of [POST /extract-url]. *)
Definition extract_from_url (url : str) : Py OCRResult.t :=
  try_except (extract_from_url_try url) failure.

Definition handler (req : request ext) : Py OCRResult.t :=
  match req with
  | PostExtract _ file => extract_text file
  | PostExtractUrl _ url => extract_from_url url
  end.

(** [@app.post(..., response_model=OCRResult)]: a returned model is
    serialised and sent with status 200; when it does not serialise, or an
    [Exception] leaves the handler, the client gets 500; any other exception
    goes on to the server. *)
Definition respond (outcome : Py OCRResult.t) : Py reply :=
  match outcome with
  | Return r => Return (if renders r then Json 200 r else InternalServerError)
  | Raise (Exception _) => Return InternalServerError
  | Raise (BaseException msg) => Raise (BaseException msg)
  end.

Definition serve (req : request ext) : Py reply := respond (handler req).

(** The handling of [req] raises [e] inside the [try]: in ingestion,
    fetching or recognition, or afterwards in [parse_ocr_result]. *)
Inductive handling_raises (req : request ext) (e : exn) : Prop :=
| stage_raises :
    request_raises req e ->
    handling_raises req e
| normalising_raises (contents : bytes ext)
                     (result : option (list (page_result coord))) :
    request_delivers req contents ->
    engine_answers ext contents result ->
    parse_ocr_result int round4 result = Raise e ->
    handling_raises req e.

(** "Whenever ingestion, fetching or recognition raises an exception, the
    endpoint answers 200 with a failure body", with exception read as any
    raised object. *)
Definition every_raise_reported (req : request ext) : Prop :=
  forall e : exn,
    request_raises req e ->
    exists msg : str,
      serve req =
      Return (Json 200 {| OCRResult.success := false;
                          OCRResult.extracted_text := [];
                          OCRResult.lines := [];
                          OCRResult.confidence := 0%float;
                          OCRResult.details := [];
                          OCRResult.error := Some msg |}).

End Endpoints.

End Full.

(** ["10:30"] *)
Definition departure : str := map N.of_nat [49; 48; 58; 51; 48].

(** An output of one page with two regions, without polygons. *)
Definition two_regions : option (list (page_result Z)) :=
  Some [ {| rec_texts := Some [tamilnadu_misread; departure];
            rec_scores := Some [0.92%float; 0.5%float];
            rec_polys := None |} ].

(** An output whose only text has neither score nor polygon. *)
Definition bare_region : option (list (page_result Z)) :=
  Some [ {| rec_texts := Some [departure];
            rec_scores := Some [];
            rec_polys := None |} ].

(** ["cannot convert float NaN to integer"] *)
Definition cannot_convert_nan : str :=
  map N.of_nat
    [99; 97; 110; 110; 111; 116; 32; 99; 111; 110; 118; 101; 114; 116; 32;
     102; 108; 111; 97; 116; 32; 78; 97; 78; 32; 116; 111; 32; 105; 110; 116;
     101; 103; 101; 114].

(** [int()] on a coordinate that is an integer or, as [None], a NaN. *)
Definition int_or_nan (c : option Z) : Py Z :=
  match c with
  | Some z => Return z
  | None => Raise (Exception cannot_convert_nan)
  end.

(** An output whose only region has a polygon with a NaN coordinate. *)
Definition nan_polygon_output : option (list (page_result (option Z))) :=
  Some [ {| rec_texts := Some [departure];
            rec_scores := Some [0.5%float];
            rec_polys := Some [[[Some 3%Z; None]]] |} ].

(** A world in which every call returns and the engine answers
    [nan_polygon_output]. *)
Definition nan_polygon : Externals (option Z) :=
  {| UploadFile := unit;
     bytes := unit;
     Image := unit;
     ndarray := unit;
     Response := unit;
     file_read := fun _ => Return tt;
     Image_open := fun _ => Return tt;
     mode_is_RGB := fun _ => true;
     convert_RGB := fun image => Return image;
     np_array := fun _ => Return tt;
     ocr_predict := fun _ => Return nan_polygon_output;
     import_httpx := Return tt;
     client_get := fun _ => Return tt;
     raise_for_status := fun _ => Return tt;
     response_content := fun _ => tt |}.
(** * Properties *)

(** ** Strings *)

Lemma eqb_eq (a b : str) : PyStr.eqb a b = true <-> a = b.
Proof.
  revert b; induction a as [|x a IH]; intros [|y b]; simpl;
    try (split; (reflexivity || discriminate)).
  rewrite andb_true_iff, N.eqb_eq, IH.
  split; [intros [-> ->]; reflexivity | intros H; inversion H; auto].
Qed.

Lemma eqb_refl (a : str) : PyStr.eqb a a = true.
Proof. apply eqb_eq; reflexivity. Qed.

Lemma startswith_contains (p s : str) :
  contains p s = false -> startswith p s = false.
Proof.
  destruct s; simpl; intros H; apply orb_false_iff in H; tauto.
Qed.

Lemma replace_scan_absent (old new s : str) :
  contains old s = false -> replace_scan old new 0 s = s.
Proof.
  induction s as [|c s IH]; [reflexivity|].
  intros H. pose proof (startswith_contains _ _ H) as Hs.
  cbn [replace_scan]. rewrite Hs. f_equal. apply IH.
  simpl in H. apply orb_false_iff in H. tauto.
Qed.

(** Replacing a pattern that does not occur changes nothing, so the
    membership test of the loop is only a shortcut. *)
Lemma replace_absent (old new s : str) :
  contains old s = false -> replace old new s = s.
Proof.
  destruct old as [|o old]; [destruct s; discriminate|].
  apply replace_scan_absent.
Qed.

Lemma replace_scan_skip (old new : str) (k : nat) (s : str) :
  replace_scan old new k s = replace_scan old new 0 (skipn k s).
Proof.
  revert k; induction s as [|c s IH]; intros [|k]; try reflexivity.
  cbn [replace_scan skipn]. apply IH.
Qed.

(** The scan, read as Python documents it: at an occurrence emit [new] and
    go on after the occurrence, otherwise keep the character. *)
Lemma replace_unfold (o : N) (old new : str) (c : N) (s : str) :
  replace (o :: old) new (c :: s) =
  if startswith (o :: old) (c :: s)
  then new ++ replace (o :: old) new (skipn (length old) s)
  else c :: replace (o :: old) new s.
Proof.
  unfold replace. cbn [replace_scan].
  destruct (startswith (o :: old) (c :: s)); [|reflexivity].
  f_equal. apply replace_scan_skip.
Qed.

Lemma correct_step_replace (s : str) (rule : str * str) :
  correct_step s rule = replace (fst rule) (snd rule) s.
Proof.
  destruct rule as [wrong correct]; unfold correct_step; simpl.
  destruct (contains wrong s) eqn:E; [reflexivity|].
  symmetry; apply replace_absent; exact E.
Qed.

Lemma fold_correct_step (table : list (str * str)) (s : str) :
  fold_left correct_step table s = apply_rules table s.
Proof.
  unfold apply_rules. revert s; induction table as [|r table IH]; intros s.
  - reflexivity.
  - simpl. rewrite correct_step_replace. apply IH.
Qed.

(** The dict display has no repeated key: iteration order is the order in
    which the rules are written. *)
Lemma TAMIL_CORRECTIONS_order : TAMIL_CORRECTIONS = TAMIL_CORRECTIONS_literal.
Proof. vm_compute. reflexivity. Qed.

Lemma apply_rules_nil : apply_rules TAMIL_CORRECTIONS_literal [] = [].
Proof. vm_compute. reflexivity. Qed.

(** C3: for every input, [correct_tamil_text] is the left fold, over the
    table in its declaration order, of global substring replacement: every
    rule is applied whether or not earlier ones matched, each on the text the
    earlier ones produced; the empty input is returned unchanged. *)
Theorem correct_tamil_text_is_fold :
  (forall text : str,
      correct_tamil_text text = apply_rules TAMIL_CORRECTIONS_literal text) /\
  correct_tamil_text [] = [].
Proof.
  split; [|reflexivity].
  intros text. unfold correct_tamil_text.
  destruct text as [|c text].
  - simpl. symmetry. apply apply_rules_nil.
  - cbn [truthy negb]. rewrite fold_correct_step, TAMIL_CORRECTIONS_order.
    reflexivity.
Qed.

Lemma truthy_rev (s : str) : truthy (rev s) = truthy s.
Proof.
  destruct s as [|c s]; [reflexivity|].
  simpl. destruct (rev s); reflexivity.
Qed.

Lemma has_visible_rev (s : str) : has_visible (rev s) = has_visible s.
Proof.
  unfold has_visible. induction s as [|c s IH]; [reflexivity|].
  simpl. rewrite existsb_app, IH. simpl.
  rewrite orb_false_r. apply orb_comm.
Qed.

Lemma has_visible_lstrip (s : str) : has_visible (lstrip s) = has_visible s.
Proof.
  induction s as [|c s IH]; [reflexivity|].
  simpl. destruct (isspace c) eqn:E; [exact IH|].
  simpl. rewrite E. reflexivity.
Qed.

Lemma truthy_lstrip (s : str) : truthy (lstrip s) = has_visible s.
Proof.
  induction s as [|c s IH]; [reflexivity|].
  simpl. destruct (isspace c) eqn:E; [exact IH | reflexivity].
Qed.

(** [if s.strip():] holds exactly when [s] has a character that is not
    whitespace. *)
Lemma truthy_strip (s : str) : truthy (strip s) = has_visible s.
Proof.
  unfold strip, rstrip.
  rewrite truthy_rev, truthy_lstrip, has_visible_rev.
  apply has_visible_lstrip.
Qed.

Lemma has_visible_truthy (s : str) : has_visible s = true -> truthy s = true.
Proof. destruct s; [discriminate | reflexivity]. Qed.

(** ** The loop of [parse_ocr_result] *)

Lemma getitem_default {A : Type} (l : list A) (i : nat) (d : A) :
  (if i <? length l then getitem l i else Return d) = Return (nth i l d).
Proof.
  destruct (Nat.ltb_spec i (length l)) as [H|H].
  - unfold getitem.
    destruct (nth_error l i) eqn:E.
    + rewrite (nth_error_nth _ _ d E). reflexivity.
    + apply nth_error_None in E. lia.
  - rewrite nth_overflow by exact H. reflexivity.
Qed.

Section NormalizerFacts.

Variable coord : Type.
Variable int : coord -> Z.
Variable round4 : float -> float.

Lemma bbox_ints (bbox : polygon coord) :
  match bbox with
  | [] => []
  | _ :: _ => map (map int) bbox
  end = map (map int) bbox.
Proof. destruct bbox; reflexivity. Qed.

Lemma original_text_test (a b : str) :
  (if negb (PyStr.eqb a b) then Some a else None) =
  (if PyStr.eqb a b then None else Some a).
Proof. destruct (PyStr.eqb a b); reflexivity. Qed.

Lemma keep_all_nil (st : locals) : keep_all int round4 st [] = st.
Proof.
  destruct st; unfold keep_all; simpl.
  rewrite !app_nil_r, Z.add_0_r. reflexivity.
Qed.

Lemma keep_all_cons (st : locals) (r : region coord)
      (rs : list (region coord)) :
  keep_all int round4 (keep_all int round4 st [r]) rs =
  keep_all int round4 st (r :: rs).
Proof.
  unfold keep_all; simpl. rewrite <- !app_assoc. simpl.
  f_equal. lia.
Qed.

(** One turn of the loop: a retained region is appended, any other leaves
    the variables as they were; no turn raises. *)
Lemma region_body_spec (scores : list float) (polys : list (polygon coord))
      (st : locals) (it : nat * str) :
  region_body int round4 scores polys st it =
  Return (if retained (region_at scores polys it)
          then keep_all int round4 st [region_at scores polys it] else st).
Proof.
  destruct it as [i text]. unfold region_body.
  rewrite !getitem_default. cbn [bind].
  rewrite truthy_strip. unfold retained, corrected, region_at at 1.
  cbn [region_text fst snd].
  destruct (has_visible (correct_tamil_text text)); [|reflexivity].
  rewrite bbox_ints, original_text_test. reflexivity.
Qed.

Lemma for_each_region_body (scores : list float)
      (polys : list (polygon coord)) (its : list (nat * str)) (st : locals) :
  for_each (region_body int round4 scores polys) its st =
  Return (keep_all int round4 st
                   (filter retained (map (region_at scores polys) its))).
Proof.
  revert st; induction its as [|it its IH]; intros st.
  - simpl. rewrite keep_all_nil. reflexivity.
  - cbn [for_each]. rewrite region_body_spec. cbn [bind map filter].
    rewrite IH.
    destruct (retained (region_at scores polys it)); [|reflexivity].
    rewrite keep_all_cons. reflexivity.
Qed.

Lemma sum_from_zero (confs : list float) (c : float) (x : number) :
  fold_left add_float confs (add_float x c) =
  Float (fold_left PrimFloat.add confs (PrimFloat.add (to_float x) c)).
Proof.
  unfold add_float at 2. generalize (PrimFloat.add (to_float x) c).
  induction confs as [|c' confs IH]; intros f; [reflexivity|].
  simpl. unfold add_float at 2. simpl. apply IH.
Qed.

(** The average the function computes from its two counters is the mean
    of the confidences it added. *)
Lemma average_is_mean (confs : list float) :
  (if (0 <? 0 + Z.of_nat (length confs))%Z
   then truediv (fold_left add_float confs (Int 0))
                (0 + Z.of_nat (length confs))
   else Int 0) = mean confs.
Proof.
  destruct confs as [|c confs]; [reflexivity|].
  replace (0 <? 0 + Z.of_nat (length (c :: confs)))%Z with true
    by (symmetry; apply Z.ltb_lt; simpl length; lia).
  rewrite Z.add_0_l. cbn [fold_left]. rewrite sum_from_zero.
  reflexivity.
Qed.

(** [parse_ocr_result] in closed form: it never raises, and its four
    results are read off the retained regions. *)
Lemma parse_ocr_result_spec (result : option (list (page_result coord))) :
  parse_ocr_result int round4 result =
  let rs := filter retained (regions result) in
  Return (join newline (map corrected rs),
          map corrected rs,
          mean (map region_confidence rs),
          map (detail_of int round4) rs).
Proof.
  unfold parse_ocr_result, regions.
  destruct result as [[|page pages]|];
    try (cbn; reflexivity).
  rewrite for_each_region_body. cbn [bind].
  cbv zeta. cbn [keep_all lines details count total_confidence app].
  rewrite <- (length_map region_confidence).
  rewrite average_is_mean. reflexivity.
Qed.

End NormalizerFacts.

(** ** Result normalisation *)


Lemma ends_with_newline_app (a b : str) :
  b <> [] -> ends_with_newline (a ++ b) = ends_with_newline b.
Proof.
  intros Hb. unfold ends_with_newline. rewrite rev_app_distr.
  destruct (rev b) as [|c rb] eqn:E; [|reflexivity].
  apply (f_equal (@rev N)) in E. rewrite rev_involutive in E.
  contradiction.
Qed.

Lemma join_nonempty (sep : str) (x : str) (l : list str) :
  x <> [] -> join sep (x :: l) <> [].
Proof.
  intros Hx. destruct l; simpl; [exact Hx|].
  destruct x; [contradiction | discriminate].
Qed.

(** Joining adds nothing after the last line. *)
Lemma join_ends (l : list str) :
  Forall (fun x => x <> []) l ->
  ends_with_newline (join newline l) = ends_with_newline (last l []).
Proof.
  induction 1 as [|x l Hx Hl IH]; [reflexivity|].
  destruct l as [|y l]; [reflexivity|].
  change (join newline (x :: y :: l))
    with (x ++ newline ++ join newline (y :: l)).
  change (last (x :: y :: l) []) with (last (y :: l) []).
  rewrite app_assoc, ends_with_newline_app; [exact IH|].
  apply join_nonempty. inversion Hl; assumption.
Qed.

Section NormalizerClaims.

Variable coord : Type.
Variable int : coord -> Z.
Variable round4 : float -> float.

Lemma retained_nonempty (rs : list (region coord)) :
  Forall (fun x : str => x <> []) (map corrected (filter retained rs)).
Proof.
  apply Forall_map, Forall_forall. intros r Hr.
  apply filter_In in Hr. destruct Hr as [_ Hr].
  unfold retained in Hr. destruct (corrected r); [discriminate|].
  discriminate.
Qed.

(** C1 (amended): a region's line is in the result if and only if its
    corrected text holds a character other than whitespace; the lines are
    the corrected texts of those regions in engine order, and the mean
    confidence and the number of detail records are those of the same
    regions. *)
Theorem retained_iff_visible (result : option (list (page_result coord))) :
  exists extracted_text details,
    parse_ocr_result int round4 result =
      Return (extracted_text,
              map corrected (filter retained (regions result)),
              mean (map region_confidence
                        (filter retained (regions result))),
              details) /\
    length details = length (filter retained (regions result)) /\
    forall r : region coord,
      In r (filter retained (regions result)) <->
      In r (regions result) /\ has_visible (corrected r) = true.
Proof.
  rewrite parse_ocr_result_spec. cbv zeta.
  eexists _, _. split; [reflexivity|]. split.
  - apply length_map.
  - intros r. apply filter_In.
Qed.

(** C4: the mean confidence is the sum of the confidences of the retained
    regions divided by their number, and it is the integer 0, with no
    division performed, when no region is retained. *)
Theorem mean_confidence (result : option (list (page_result coord))) :
  exists extracted_text lines avg_confidence details,
    parse_ocr_result int round4 result =
      Return (extracted_text, lines, avg_confidence, details) /\
    avg_confidence =
      match map region_confidence (filter retained (regions result)) with
      | [] => Int 0
      | c :: confs =>
          Float (PrimFloat.div
                   (fold_left PrimFloat.add (c :: confs) PrimFloat.zero)
                   (float_of_int (Z.of_nat (length (c :: confs)))))
      end.
Proof.
  rewrite parse_ocr_result_spec. cbv zeta.
  eexists _, _, _, _. split; [reflexivity|].
  unfold mean.
  destruct (map region_confidence (filter retained (regions result)));
    reflexivity.
Qed.

(** C5 (amended): [extracted_text] is the retained lines joined by one
    newline; the join puts nothing after the last line, so the text ends
    with a newline only if the last retained line does, and is empty when
    no line is retained. *)
Theorem extracted_text_is_join (result : option (list (page_result coord))) :
  exists extracted_text lines avg_confidence details,
    parse_ocr_result int round4 result =
      Return (extracted_text, lines, avg_confidence, details) /\
    extracted_text = join newline lines /\
    ends_with_newline extracted_text = ends_with_newline (last lines []).
Proof.
  rewrite parse_ocr_result_spec. cbv zeta.
  eexists _, _, _, _. split; [reflexivity|]. split; [reflexivity|].
  apply join_ends, retained_nonempty.
Qed.

(** C6: for every retained region, [original_text] of its detail record is
    [None] exactly when the corrected text equals the engine's text, and is
    the engine's text otherwise. *)
Theorem original_text_null_iff_unchanged
        (result : option (list (page_result coord))) :
  exists extracted_text lines avg_confidence details,
    parse_ocr_result int round4 result =
      Return (extracted_text, lines, avg_confidence, details) /\
    Forall2
      (fun r d =>
         Detail.text d = corrected r /\
         (corrected r = region_text r /\ Detail.original_text d = None \/
          corrected r <> region_text r /\
          Detail.original_text d = Some (region_text r)))
      (filter retained (regions result)) details.
Proof.
  rewrite parse_ocr_result_spec. cbv zeta.
  eexists _, _, _, _. split; [reflexivity|].
  induction (filter retained (regions result)) as [|r rs IH];
    constructor; [|exact IH].
  split; [reflexivity|]. cbn [detail_of Detail.original_text].
  destruct (PyStr.eqb (region_text r) (corrected r)) eqn:E.
  - left. apply eqb_eq in E. auto.
  - right. split; [|reflexivity].
    intros H. rewrite H, eqb_refl in E. discriminate.
Qed.

(** C10: [lines] and [details] have the same length, the i-th detail
    record's text is the i-th line, and both follow the engine's order. *)
Theorem lines_and_details_aligned
        (result : option (list (page_result coord))) :
  exists extracted_text lines avg_confidence details,
    parse_ocr_result int round4 result =
      Return (extracted_text, lines, avg_confidence, details) /\
    length lines = length details /\
    (forall i : nat,
        nth_error lines i = option_map Detail.text (nth_error details i)) /\
    lines = map corrected (filter retained (regions result)).
Proof.
  rewrite parse_ocr_result_spec. cbv zeta.
  eexists _, _, _, _. split; [reflexivity|]. split; [|split].
  - rewrite !length_map. reflexivity.
  - intros i. rewrite !nth_error_map.
    destruct (nth_error (filter retained (regions result)) i); reflexivity.
  - reflexivity.
Qed.

End NormalizerClaims.

Section DefaultsAndScenario.

Variable coord : Type.
Variable int : coord -> Z.
Variable round4 : float -> float.





(** A text with neither score nor polygon: confidence 0.0, empty bbox. *)
Example bare_region_defaults :
  parse_ocr_result (fun z : Z => z) (fun x : float => x) bare_region =
  Return (departure, [departure], Float 0%float,
          [ {| Detail.text := departure;
               Detail.original_text := None;
               Detail.confidence := 0%float;
               Detail.bbox := [] |} ]).
Proof. vm_compute. reflexivity. Qed.

Lemma correct_tamilnadu : correct_tamil_text tamilnadu_misread = tamilnadu.
Proof. vm_compute. reflexivity. Qed.

(** C8: for the single region ['தம்ழ்நாடு'] with confidence 0.92 the line
    is retained with text ['தமிழ்நாடு'], the detail record's
    [original_text] is ['தம்ழ்நாடு'], and the mean confidence is 0.92. *)
Theorem tamilnadu_scenario (polys : option (list (polygon coord))) :
  exists d : Detail.t,
    parse_ocr_result int round4
                     (one_region tamilnadu_misread 0.92%float polys) =
      Return (tamilnadu, [tamilnadu], Float 0.92%float, [d]) /\
    Detail.text d = tamilnadu /\
    Detail.original_text d = Some tamilnadu_misread.
Proof.
  rewrite parse_ocr_result_spec. cbv zeta.
  change (regions (one_region tamilnadu_misread 0.92%float polys))
    with [ {| region_text := tamilnadu_misread;
              region_confidence := 0.92%float;
              region_bbox := nth 0 (dict_get polys []) [] |} ].
  set (r := {| region_text := tamilnadu_misread;
               region_confidence := 0.92%float;
               region_bbox := nth 0 (dict_get polys []) [] |}).
  assert (Hc : corrected r = tamilnadu) by exact correct_tamilnadu.
  assert (Hr : retained r = true)
    by (unfold retained; rewrite Hc; reflexivity).
  cbn [filter]. rewrite Hr. cbn [map join]. rewrite Hc.
  exists (detail_of int round4 r). split; [|split].
  - reflexivity.
  - exact Hc.
  - cbn [detail_of Detail.original_text]. rewrite Hc. reflexivity.
Qed.

End DefaultsAndScenario.

(** Scenario 8 of the specification: the single region ['@tristcl'] is
    deleted by the table and dropped; nothing is retained and the mean is
    the integer 0. *)
Example noise_region_dropped :
  parse_ocr_result (fun z : Z => z) (fun x : float => x)
    (one_region (map N.of_nat [64; 116; 114; 105; 115; 116; 99; 108])
                0.5%float None) =
  Return ([], [], Int 0, []).
Proof. vm_compute. reflexivity. Qed.

(** ** Counterexamples to the readings set aside *)

(** C1 as stated fails: a region whose text is one space is non-empty after
    correction, and its line is not retained. *)
Lemma space_only_region_dropped :
  ~ retained_iff_nonempty (fun z : Z => z) (fun x : float => x)
      (one_region [0x20%N] 0.5%float None).
Proof.
  unfold retained_iff_nonempty.
  intros (extracted_text & lines & avg & details & Hparse & Hlines).
  vm_compute in Hparse. vm_compute in Hlines.
  rewrite Hlines in Hparse. discriminate Hparse.
Qed.

(** C5 as stated fails: a retained line that ends with a newline makes
    [extracted_text] end with one. *)
Lemma line_with_newline_kept :
  ~ joined_without_trailing_newline (fun z : Z => z) (fun x : float => x)
      (one_region [0x61%N; 0x0a%N] 0.5%float None).
Proof.
  unfold joined_without_trailing_newline.
  intros (extracted_text & lines & avg & details & Hparse & Hjoin & Hend).
  vm_compute in Hparse. injection Hparse as <- _ _ _.
  vm_compute in Hend. discriminate Hend.
Qed.

(** ** The correction table applied twice *)

(** C2: the rule ['திருச்ச' -> 'திருச்சி'] matches inside its own
    replacement.  Correcting ['திருச்ச'] gives the city name, correcting the
    city name doubles its last vowel sign, so a second application changes
    the result of the first; and ['கருச்சி'], which the table maps to the
    city name, comes out with the doubled sign in a single call. *)
Theorem tiruchi_rule_fires_on_its_output :
  In (tiruchi_misread, tiruchi) TAMIL_CORRECTIONS /\
  In (karuchi, tiruchi) TAMIL_CORRECTIONS /\
  correct_tamil_text tiruchi_misread = tiruchi /\
  correct_tamil_text (correct_tamil_text tiruchi_misread) = tiruchi_doubled /\
  correct_tamil_text (correct_tamil_text tiruchi_misread) <>
    correct_tamil_text tiruchi_misread /\
  correct_tamil_text karuchi = tiruchi_doubled.
Proof.
  repeat split; try (vm_compute; reflexivity).
  - vm_compute. tauto.
  - vm_compute. tauto.
  - vm_compute. discriminate.
Qed.

(** ** The endpoints *)

Section EndpointClaims.

Variable coord : Type.
Variable int : coord -> Z.
Variable round4 : float -> float.
Variable ext : Externals coord.

Lemma recognise_raises_raise (contents : bytes ext) (e : exn) :
  recognise_raises ext contents e ->
  recognise int round4 ext contents = Raise e.
Proof.
  unfold recognise.
  intros [H | image H1 H2 | image rgb H1 H2 H3
          | image rgb image_np H1 H2 H3 H4].
  - rewrite H. reflexivity.
  - rewrite H1. cbn [bind]. rewrite H2. reflexivity.
  - rewrite H1. cbn [bind]. rewrite H2. cbn [bind]. rewrite H3.
    reflexivity.
  - rewrite H1. cbn [bind]. rewrite H2. cbn [bind]. rewrite H3.
    cbn [bind]. rewrite H4. reflexivity.
Qed.

(** The taxonomy is complete: the normaliser never raises, so the shared
    lines raise only where decoding or the recognition call does. *)
Lemma recognise_raise_raises (contents : bytes ext) (e : exn) :
  recognise int round4 ext contents = Raise e ->
  recognise_raises ext contents e.
Proof.
  unfold recognise.
  destruct (Image_open ext contents) as [image|e1] eqn:H1; cbn [bind];
    [|intros [= <-]; apply open_raises; exact H1].
  destruct (to_rgb ext image) as [rgb|e2] eqn:H2; cbn [bind];
    [|intros [= <-]; eapply convert_raises; eassumption].
  destruct (np_array ext rgb) as [image_np|e3] eqn:H3; cbn [bind];
    [|intros [= <-]; eapply array_raises; eassumption].
  destruct (ocr_predict ext image_np) as [result|e4] eqn:H4; cbn [bind];
    [|intros [= <-]; eapply predict_raises; eassumption].
  rewrite parse_ocr_result_spec. cbv zeta. cbn [bind]. discriminate.
Qed.

Lemma try_block_raises (req : request ext) (e : exn) :
  request_raises req e ->
  match req with
  | PostExtract _ file => extract_text_try int round4 ext file
  | PostExtractUrl _ url => extract_from_url_try int round4 ext url
  end = Raise e.
Proof.
  intros [file e' H | file contents e' H1 H2 | url e' H | url e' H1 H2
          | url response e' H1 H2 H3 | url response e' H1 H2 H3 H4].
  - unfold extract_text_try. rewrite H. reflexivity.
  - unfold extract_text_try. rewrite H1. cbn [bind].
    apply recognise_raises_raise. exact H2.
  - unfold extract_from_url_try. rewrite H. reflexivity.
  - unfold extract_from_url_try. rewrite H1. cbn [bind]. rewrite H2.
    reflexivity.
  - unfold extract_from_url_try. rewrite H1. cbn [bind]. rewrite H2.
    cbn [bind]. rewrite H3. reflexivity.
  - unfold extract_from_url_try. rewrite H1. cbn [bind]. rewrite H2.
    cbn [bind]. rewrite H3. cbn [bind].
    apply recognise_raises_raise. exact H4.
Qed.

(** Conversely, a [try] block raises only for one of the listed failures. *)
Lemma try_block_raise_raises (req : request ext) (e : exn) :
  match req with
  | PostExtract _ file => extract_text_try int round4 ext file
  | PostExtractUrl _ url => extract_from_url_try int round4 ext url
  end = Raise e ->
  request_raises req e.
Proof.
  destruct req as [file|url].
  - unfold extract_text_try.
    destruct (file_read ext file) as [contents|e1] eqn:H1; cbn [bind].
    + intros H. eapply upload_raises; [exact H1|].
      eapply recognise_raise_raises; exact H.
    + intros [= <-]. apply read_raises; exact H1.
  - unfold extract_from_url_try.
    destruct (import_httpx ext) as [[]|e1] eqn:H1; cbn [bind];
      [|intros [= <-]; apply import_raises; exact H1].
    destruct (client_get ext url) as [response|e2] eqn:H2; cbn [bind];
      [|intros [= <-]; apply get_raises; assumption].
    destruct (raise_for_status ext response) as [[]|e3] eqn:H3; cbn [bind];
      [|intros [= <-]; eapply status_raises; eassumption].
    intros H. eapply fetched_raises; try eassumption.
    eapply recognise_raise_raises; exact H.
Qed.

End EndpointClaims.

(** * Further properties *)

(** ** The correction table on text it should leave alone *)

Lemma fold_correct_step_absent (table : list (str * str)) (text : str) :
  forallb (fun rule => negb (contains (fst rule) text)) table = true ->
  fold_left correct_step table text = text.
Proof.
  induction table as [|[wrong correct] table IH]; [reflexivity|].
  cbn [forallb fst]. intros H. apply andb_true_iff in H. destruct H as [H1 H2].
  cbn [fold_left correct_step].
  apply negb_true_iff in H1. rewrite H1. apply IH. exact H2.
Qed.

Lemma correct_tamil_text_absent (text : str) :
  forallb (fun rule => negb (contains (fst rule) text)) TAMIL_CORRECTIONS
    = true ->
  correct_tamil_text text = text.
Proof.
  intros H. unfold correct_tamil_text.
  destruct (negb (truthy text)); [reflexivity|].
  apply fold_correct_step_absent. exact H.
Qed.

(** A text in which no pattern of the table occurs is returned as it is. *)
Theorem text_without_patterns_unchanged (text : str) :
  forallb (fun rule => negb (contains (fst rule) text)) TAMIL_CORRECTIONS
    = true ->
  correct_tamil_text text = text.
Proof.
  intros H. unfold correct_tamil_text.
  destruct (truthy text); cbn [negb]; [|reflexivity].
  apply fold_correct_step_absent. exact H.
Qed.

Lemma text_without_patterns_unchanged_witness :
  correct_tamil_text tamilnadu = tamilnadu.
Proof.
  apply (text_without_patterns_unchanged tamilnadu). vm_compute. reflexivity.
Defined.

Lemma startswith_forallb (P : N -> bool) (p s : str) :
  startswith p s = true -> forallb P s = true -> forallb P p = true.
Proof.
  revert s; induction p as [|x p IH]; intros [|y s]; simpl;
    try reflexivity; try discriminate.
  intros H1 H2. apply andb_true_iff in H1. destruct H1 as [Hxy Hp].
  apply andb_true_iff in H2. destruct H2 as [Hy Hs].
  apply N.eqb_eq in Hxy. subst y. rewrite Hy. simpl.
  apply (IH s); assumption.
Qed.

(** A pattern that occurs in a text is made of characters of the text. *)
Lemma contains_forallb (P : N -> bool) (p s : str) :
  contains p s = true -> forallb P s = true -> forallb P p = true.
Proof.
  induction s as [|c s IH].
  - simpl. rewrite orb_false_r. intros H _.
    destruct p; [reflexivity | discriminate].
  - intros H Hs. change (contains p (c :: s))
      with (startswith p (c :: s) || contains p s) in H.
    apply orb_true_iff in H. destruct H as [H|H].
    + apply (startswith_forallb P _ _ H Hs).
    + apply IH; [exact H|]. simpl in Hs. apply andb_true_iff in Hs. tauto.
Qed.

Lemma patterns_have_letters :
  forallb (fun rule => negb (forallb below_letters (fst rule)))
          TAMIL_CORRECTIONS = true.
Proof. vm_compute. reflexivity. Qed.

(** Every pattern of the table holds a letter, so a text made only of
    digits, spaces and ASCII punctuation (a departure time, a fare, a route
    number) is returned as it is. *)
Theorem text_without_letters_unchanged (text : str) :
  forallb below_letters text = true ->
  correct_tamil_text text = text.
Proof.
  intros Htext. apply correct_tamil_text_absent.
  pose proof patterns_have_letters as Hp.
  rewrite forallb_forall in Hp. apply forallb_forall. intros rule Hin.
  specialize (Hp rule Hin). apply negb_true_iff in Hp.
  apply negb_true_iff.
  destruct (contains (fst rule) text) eqn:E; [|reflexivity].
  pose proof (contains_forallb below_letters _ _ E Htext) as H.
  exact (eq_trans (eq_sym H) Hp).
Qed.

(** ["10:30 - 14:45"] *)
Lemma text_without_letters_unchanged_witness :
  correct_tamil_text
    (map N.of_nat [49; 48; 58; 51; 48; 32; 45; 32; 49; 52; 58; 52; 53]) =
  map N.of_nat [49; 48; 58; 51; 48; 32; 45; 32; 49; 52; 58; 52; 53].
Proof.
  apply text_without_letters_unchanged. vm_compute. reflexivity.
Defined.

Lemma startswith_split (p s : str) :
  startswith p s = true -> s = p ++ skipn (length p) s.
Proof.
  revert s; induction p as [|x p IH]; intros [|y s]; simpl;
    try reflexivity; try discriminate.
  intros H. apply andb_true_iff in H. destruct H as [Hxy Hp].
  apply N.eqb_eq in Hxy. subst y. f_equal. apply IH. exact Hp.
Qed.

Lemma flat_map_singleton (s : str) : flat_map (fun c => [c]) s = s.
Proof. induction s as [|c s IH]; [reflexivity|]. simpl. f_equal. exact IH. Qed.

(** Replacing a pattern by itself changes nothing. *)
Lemma replace_same (old s : str) : replace old old s = s.
Proof.
  destruct old as [|o old]; [apply flat_map_singleton|].
  remember (length s) as n eqn:Hn.
  revert s Hn. induction n as [n IH] using lt_wf_ind. intros s Hn.
  destruct s as [|c s]; [reflexivity|].
  rewrite replace_unfold.
  destruct (startswith (o :: old) (c :: s)) eqn:E.
  - pose proof (startswith_split _ _ E) as Hs. cbn [length skipn] in Hs.
    rewrite (IH (length (skipn (length old) s))); [|simpl in Hn|reflexivity].
    + symmetry. exact Hs.
    + rewrite length_skipn. subst n. simpl. lia.
  - f_equal. apply (IH (length s)); [subst n; simpl; lia | reflexivity].
Qed.

(** The rules that map a word to itself ("keep as is", "already correct but
    ensure") never change a text: neither their turn of the loop nor,
    because of it, their presence in the table has an effect; the table has
    three of them. *)
Theorem identity_rules_change_nothing :
  (forall (word text : str), correct_step text (word, word) = text) /\
  length (filter (fun rule => PyStr.eqb (fst rule) (snd rule))
                 TAMIL_CORRECTIONS) = 3.
Proof.
  split.
  - intros word text. rewrite correct_step_replace. apply replace_same.
  - vm_compute. reflexivity.
Qed.

Lemma overridden_rules_patterns :
  map fst overridden_rules = overridden_patterns.
Proof. vm_compute. reflexivity. Qed.

(** Correcting a pattern of the table on its own gives the replacement the
    table declares for it, for every rule but five: the three misreadings
    mapped to ['திருச்சி'] and ['கும்பகொணம்'], which a neighbouring rule
    rewrites once more, and ['ccblog.in'], of which the earlier rule for
    ['log.in'] leaves ['ccb']. *)
Theorem declared_corrections_but_five (rule : str * str) :
  In rule TAMIL_CORRECTIONS ->
  ~ In (fst rule) overridden_patterns ->
  correct_tamil_text (fst rule) = snd rule.
Proof.
  intros Hin Hnot.
  destruct (PyStr.eqb (correct_tamil_text (fst rule)) (snd rule)) eqn:E.
  - apply eqb_eq. exact E.
  - exfalso. apply Hnot. rewrite <- overridden_rules_patterns.
    apply in_map. unfold overridden_rules.
    refine (proj2 (filter_In _ rule TAMIL_CORRECTIONS) _).
    split; [exact Hin|]. rewrite E. reflexivity.
Qed.

Lemma declared_corrections_but_five_witness :
  correct_tamil_text (fst (tamilnadu_misread, tamilnadu)) =
  snd (tamilnadu_misread, tamilnadu).
Proof.
  apply (@declared_corrections_but_five (tamilnadu_misread, tamilnadu)).
  - rewrite TAMIL_CORRECTIONS_order. left. reflexivity.
  - intros [H|[H|[H|[H|[H|[]]]]]]; discriminate H.
Defined.

Lemma unstable_rules_replacements :
  forallb (fun rule => PyStr.eqb (snd rule) tiruchi ||
                       PyStr.eqb (snd rule) tiruchendur)
          unstable_rules = true.
Proof. vm_compute. reflexivity. Qed.

(** Every replacement of the table other than ['திருச்சி'] and
    ['திருச்செந்தூர்'] is left as it is when it is corrected again: on those
    outputs a second application changes nothing. *)
Theorem replacements_stable_but_two (rule : str * str) :
  In rule TAMIL_CORRECTIONS ->
  snd rule <> tiruchi ->
  snd rule <> tiruchendur ->
  correct_tamil_text (snd rule) = snd rule.
Proof.
  intros Hin H1 H2.
  destruct (PyStr.eqb (correct_tamil_text (snd rule)) (snd rule)) eqn:E.
  - apply eqb_eq. exact E.
  - exfalso. pose proof unstable_rules_replacements as Hu.
    rewrite forallb_forall in Hu. specialize (Hu rule).
    assert (Hr : In rule unstable_rules).
    { unfold unstable_rules.
      refine (proj2 (filter_In _ rule TAMIL_CORRECTIONS) _).
      split; [exact Hin|]. rewrite E. reflexivity. }
    apply Hu in Hr. apply orb_true_iff in Hr.
    destruct Hr as [Hr|Hr]; apply eqb_eq in Hr; contradiction.
Qed.

Lemma replacements_stable_but_two_witness :
  correct_tamil_text (snd (tamilnadu_misread, tamilnadu)) =
  snd (tamilnadu_misread, tamilnadu).
Proof.
  apply (@replacements_stable_but_two (tamilnadu_misread, tamilnadu)).
  - rewrite TAMIL_CORRECTIONS_order. left. reflexivity.
  - discriminate.
  - discriminate.
Defined.

(** ** More on result normalisation *)

Lemma split_newline_line (x : str) :
  no_newline x = true -> split_newline x = [x].
Proof.
  induction x as [|c x IH]; [reflexivity|].
  cbn [no_newline forallb]. intros H. apply andb_true_iff in H.
  destruct H as [Hc Hx]. apply negb_true_iff in Hc.
  cbn [split_newline]. rewrite Hc. rewrite (IH Hx). reflexivity.
Qed.

Lemma split_newline_app (x rest : str) :
  no_newline x = true ->
  split_newline (x ++ newline ++ rest) = x :: split_newline rest.
Proof.
  induction x as [|c x IH].
  - intros _. reflexivity.
  - cbn [no_newline forallb]. intros H. apply andb_true_iff in H.
    destruct H as [Hc Hx]. apply negb_true_iff in Hc.
    cbn [app split_newline]. rewrite Hc.
    change (x ++ 10%N :: rest) with (x ++ newline ++ rest).
    rewrite (IH Hx). reflexivity.
Qed.

(** Splitting a joined text at its newlines gives the lines back, when
    there is a line and no line holds a newline. *)
Lemma split_newline_join (l : list str) :
  l <> [] ->
  forallb no_newline l = true ->
  split_newline (join newline l) = l.
Proof.
  induction l as [|x l IH]; [contradiction|].
  intros _ H. cbn [forallb] in H. apply andb_true_iff in H.
  destruct H as [Hx Hl]. destruct l as [|y l].
  - apply split_newline_line. exact Hx.
  - change (join newline (x :: y :: l))
      with (x ++ newline ++ join newline (y :: l)).
    rewrite (@split_newline_app x _ Hx). f_equal.
    apply IH; [discriminate | exact Hl].
Qed.

Lemma join_nil_iff (l : list str) :
  Forall (fun x : str => x <> []) l -> (l = [] <-> join newline l = []).
Proof.
  intros H. split; [intros ->; reflexivity|].
  destruct H as [|x l Hx Hl]; [reflexivity|].
  intros E. exfalso. exact (@join_nonempty newline x l Hx E).
Qed.

Lemma map_nil_iff {A B : Type} (f : A -> B) (l : list A) :
  l = [] <-> map f l = [].
Proof. destruct l; split; (reflexivity || discriminate). Qed.

Lemma mean_zero_iff (confs : list float) : confs = [] <-> mean confs = Int 0.
Proof. destruct confs; split; (reflexivity || discriminate). Qed.

Section NormalizerMore.

Variable coord : Type.
Variable int : coord -> Z.
Variable round4 : float -> float.

Lemma enumerate_index {A : Type} (l : list A) (i : nat) (x : A) :
  In (i, x) (enumerate l) -> i < length l.
Proof.
  unfold enumerate. intros H. apply in_combine_l in H.
  apply in_seq in H. lia.
Qed.

Lemma length_enumerate {A : Type} (l : list A) :
  length (enumerate l) = length l.
Proof.
  unfold enumerate. rewrite length_combine, length_seq. apply Nat.min_id.
Qed.

Lemma length_regions (result : option (list (page_result coord))) :
  length (regions result) = length (texts_of result).
Proof.
  destruct result as [[|page pages]|]; try reflexivity.
  unfold regions, texts_of. rewrite length_map. apply length_enumerate.
Qed.

Lemma nth_firstn {A : Type} (l : list A) (d : A) (n i : nat) :
  i < n -> nth i (firstn n l) d = nth i l d.
Proof.
  revert l i; induction n as [|n IH]; intros l i Hi; [lia|].
  destruct l as [|x l]; [reflexivity|].
  destruct i as [|i]; [reflexivity|].
  cbn [firstn nth]. apply IH. lia.
Qed.

Lemma regions_trimmed (page : page_result coord)
      (pages : list (page_result coord)) :
  regions (Some [trimmed page]) = regions (Some (page :: pages)).
Proof.
  unfold regions, trimmed. cbn [rec_texts rec_scores rec_polys dict_get].
  apply map_ext_in. intros [i text] Hin. apply enumerate_index in Hin.
  unfold region_at. cbn [fst snd]. rewrite !nth_firstn by exact Hin.
  reflexivity.
Qed.

(** The result depends on the first page only, and there on no entry of
    [rec_scores] or [rec_polys] past the length of [rec_texts]: further
    pages and surplus scores or polygons are never read. *)
Theorem only_first_page_and_paired_entries
        (page : page_result coord) (pages : list (page_result coord)) :
  parse_ocr_result int round4 (Some (page :: pages)) =
  parse_ocr_result int round4 (Some [trimmed page]).
Proof.
  rewrite !parse_ocr_result_spec, (regions_trimmed page pages).
  reflexivity.
Qed.

(** With no text to read ([result] is [None] or empty, or the first page
    has no [rec_texts] key or an empty list under it) the result is the
    empty text, no line, the integer 0 and no detail; scores and polygons
    without a text count for nothing. *)
Theorem no_texts_no_lines (result : option (list (page_result coord))) :
  texts_of result = [] ->
  parse_ocr_result int round4 result = Return ([], [], Int 0, []).
Proof.
  intros H. rewrite parse_ocr_result_spec.
  pose proof (length_regions result) as Hlen. rewrite H in Hlen.
  destruct (regions result); [reflexivity | discriminate Hlen].
Qed.

(** Every returned line holds a character that is not whitespace, so no
    line is blank, and there are at most as many lines as texts read. *)
Theorem retained_lines_have_visible_text
        (result : option (list (page_result coord))) :
  exists extracted_text lines avg_confidence details,
    parse_ocr_result int round4 result =
      Return (extracted_text, lines, avg_confidence, details) /\
    Forall (fun line => has_visible line = true) lines /\
    length lines <= length (texts_of result).
Proof.
  rewrite parse_ocr_result_spec. cbv zeta.
  eexists _, _, _, _. split; [reflexivity|]. split.
  - apply Forall_map, Forall_forall. intros r Hr.
    apply filter_In in Hr. exact (proj2 Hr).
  - rewrite length_map, <- length_regions. apply filter_length_le.
Qed.

(** The four results are empty together: there is no line exactly when
    the text is empty, exactly when there is no detail record, and exactly
    when the mean is the integer 0 (a mean over retained lines is a float,
    also when it is 0.0). *)
Theorem empty_results_go_together
        (result : option (list (page_result coord))) :
  exists extracted_text lines avg_confidence details,
    parse_ocr_result int round4 result =
      Return (extracted_text, lines, avg_confidence, details) /\
    (lines = [] <-> extracted_text = []) /\
    (lines = [] <-> details = []) /\
    (lines = [] <-> avg_confidence = Int 0).
Proof.
  rewrite parse_ocr_result_spec. cbv zeta.
  eexists _, _, _, _. split; [reflexivity|]. split; [|split].
  - apply join_nil_iff, retained_nonempty.
  - rewrite <- !map_nil_iff. reflexivity.
  - rewrite <- mean_zero_iff, <- !map_nil_iff. reflexivity.
Qed.

(** Each detail record carries the rounded confidence of its own region
    and that region's polygon with [int] applied to every coordinate: the
    points and the coordinates of each point stay as many as they were. *)
Theorem detail_confidence_and_bbox
        (result : option (list (page_result coord))) :
  exists extracted_text lines avg_confidence details,
    parse_ocr_result int round4 result =
      Return (extracted_text, lines, avg_confidence, details) /\
    Forall2
      (fun r d =>
         Detail.confidence d = round4 (region_confidence r) /\
         Detail.bbox d = map (map int) (region_bbox r) /\
         map (@length Z) (Detail.bbox d) =
         map (@length coord) (region_bbox r))
      (filter retained (regions result)) details.
Proof.
  rewrite parse_ocr_result_spec. cbv zeta.
  eexists _, _, _, _. split; [reflexivity|].
  induction (filter retained (regions result)) as [|r rs IH];
    constructor; [|exact IH].
  split; [reflexivity|]. split; [reflexivity|].
  cbn [detail_of Detail.bbox]. rewrite map_map.
  apply map_ext. intros point. apply length_map.
Qed.

(** [extracted_text] determines [lines]: when a line is returned and no
    returned line holds a newline, splitting the text at its newlines
    gives the lines back. *)
Theorem extracted_text_splits_into_lines
        (result : option (list (page_result coord)))
        (extracted_text : str) (lines : list str) (avg_confidence : number)
        (details : list Detail.t) :
  parse_ocr_result int round4 result =
    Return (extracted_text, lines, avg_confidence, details) ->
  lines <> [] ->
  forallb no_newline lines = true ->
  split_newline extracted_text = lines.
Proof.
  rewrite parse_ocr_result_spec. cbv zeta.
  intros [= <- <- _ _] Hne Hnl. apply split_newline_join; assumption.
Qed.

End NormalizerMore.

Lemma no_texts_no_lines_witness :
  parse_ocr_result (fun z : Z => z) (fun x : float => x) None =
  Return ([], [], Int 0, []).
Proof.
  apply (@no_texts_no_lines Z (fun z : Z => z) (fun x : float => x) None).
  reflexivity.
Defined.

(** Two retained lines, ['தமிழ்நாடு'] and ['10:30']: the text joined with
    one newline splits back into both. *)
Lemma extracted_text_splits_into_lines_witness :
  split_newline (tamilnadu ++ newline ++ departure) = [tamilnadu; departure].
Proof.
  apply (@extracted_text_splits_into_lines
           Z (fun z : Z => z) (fun x : float => x) two_regions
           (tamilnadu ++ newline ++ departure) [tamilnadu; departure]
           (mean [0.92%float; 0.5%float])
           (map (detail_of (fun z : Z => z) (fun x : float => x))
                (regions two_regions))).
  - vm_compute. reflexivity.
  - discriminate.
  - vm_compute. reflexivity.
Defined.

(** ** More on the endpoints *)

Section EndpointsMore.

Variable coord : Type.
Variable int : coord -> Z.
Variable round4 : float -> float.
Variable ext : Externals coord.

Lemma serve_try_block (req : request ext) :
  serve int round4 req =
  app_post (try_except (try_block int round4 req) failure).
Proof. destruct req; reflexivity. Qed.

Lemma recognise_answers (contents : bytes ext)
      (result : option (list (page_result coord))) :
  engine_answers ext contents result ->
  recognise int round4 ext contents =
  Return (success_body int round4 result).
Proof.
  intros [image rgb image_np H1 H2 H3 H4]. unfold recognise.
  rewrite H1. cbn [bind]. rewrite H2. cbn [bind]. rewrite H3. cbn [bind].
  rewrite H4. cbn [bind]. rewrite parse_ocr_result_spec. reflexivity.
Qed.

Lemma recognise_return_inv (contents : bytes ext) (r : OCRResult.t) :
  recognise int round4 ext contents = Return r ->
  exists result, engine_answers ext contents result /\
                 r = success_body int round4 result.
Proof.
  unfold recognise.
  destruct (Image_open ext contents) as [image|e1] eqn:H1; cbn [bind];
    [|discriminate].
  destruct (to_rgb ext image) as [rgb|e2] eqn:H2; cbn [bind];
    [|discriminate].
  destruct (np_array ext rgb) as [image_np|e3] eqn:H3; cbn [bind];
    [|discriminate].
  destruct (ocr_predict ext image_np) as [result|e4] eqn:H4; cbn [bind];
    [|discriminate].
  rewrite parse_ocr_result_spec. cbv zeta. cbn [bind].
  intros [= <-]. exists result. split; [|reflexivity].
  eapply engine_answer; eassumption.
Qed.

Lemma try_block_delivers (req : request ext) (contents : bytes ext) :
  request_delivers req contents ->
  try_block int round4 req = recognise int round4 ext contents.
Proof.
  intros [file contents' H | url response H1 H2 H3]; cbn [try_block].
  - unfold extract_text_try. rewrite H. reflexivity.
  - unfold extract_from_url_try. rewrite H1. cbn [bind]. rewrite H2.
    cbn [bind]. rewrite H3. reflexivity.
Qed.

Lemma try_block_return_inv (req : request ext) (r : OCRResult.t) :
  try_block int round4 req = Return r ->
  exists contents result,
    request_delivers req contents /\
    engine_answers ext contents result /\
    r = success_body int round4 result.
Proof.
  destruct req as [file|url]; cbn [try_block].
  - unfold extract_text_try.
    destruct (file_read ext file) as [contents|e1] eqn:H1; cbn [bind];
      [|discriminate].
    intros H. apply recognise_return_inv in H.
    destruct H as (result & Ha & Hr).
    exists contents, result. split; [|split]; try assumption.
    apply upload_delivers. exact H1.
  - unfold extract_from_url_try.
    destruct (import_httpx ext) as [[]|e1] eqn:H1; cbn [bind];
      [|discriminate].
    destruct (client_get ext url) as [response|e2] eqn:H2; cbn [bind];
      [|discriminate].
    destruct (raise_for_status ext response) as [[]|e3] eqn:H3; cbn [bind];
      [|discriminate].
    intros H. apply recognise_return_inv in H.
    destruct H as (result & Ha & Hr).
    exists (response_content ext response), result.
    split; [|split]; try assumption.
    apply fetch_delivers; assumption.
Qed.

(** The two endpoints differ only in how the bytes arrive: an upload and a
    fetched URL that deliver the same bytes get the same response. *)
Theorem endpoints_agree_on_same_bytes (req1 req2 : request ext)
        (contents : bytes ext) :
  request_delivers req1 contents ->
  request_delivers req2 contents ->
  serve int round4 req1 = serve int round4 req2.
Proof.
  intros H1 H2.
  rewrite !serve_try_block, (try_block_delivers H1), (try_block_delivers H2).
  reflexivity.
Qed.

(** No [Exception] leaves a handler: whatever the collaborators do, an
    endpoint returns a response or lets through an exception that is not an
    [Exception]. *)
Theorem handler_never_raises_exception (req : request ext) (msg : str) :
  serve int round4 req <> Raise (Exception msg).
Proof.
  rewrite serve_try_block.
  destruct (try_block int round4 req) as [r|[m|m]]; cbn; discriminate.
Qed.

(** An exception that is not an [Exception] is not turned into a failure
    response: it leaves the handler as it was raised. *)
Theorem base_exception_propagates (req : request ext) (msg : str) :
  request_raises req (BaseException msg) ->
  serve int round4 req = Raise (BaseException msg).
Proof.
  intros H. apply (try_block_raises int round4) in H.
  rewrite serve_try_block. unfold try_block. rewrite H. reflexivity.
Qed.

(** Every response is consistent in itself, a failure like a success:
    [extracted_text] is [lines] joined by newlines, [details] has one record
    per line with that line as its text, and no line is blank. *)
Theorem response_is_consistent (req : request ext) (resp : HttpResponse) :
  serve int round4 req = Return resp ->
  OCRResult.extracted_text (body resp) =
    join newline (OCRResult.lines (body resp)) /\
  map Detail.text (OCRResult.details (body resp)) =
    OCRResult.lines (body resp) /\
  Forall (fun line => has_visible line = true) (OCRResult.lines (body resp)).
Proof.
  rewrite serve_try_block.
  destruct (try_block int round4 req) as [r|[m|m]] eqn:E; cbn;
    [| |discriminate].
  - intros [= <-].
    destruct (try_block_return_inv _ E) as (contents & result & _ & _ & ->).
    cbn [body success_body OCRResult.extracted_text OCRResult.lines
         OCRResult.details].
    split; [reflexivity|]. split.
    + rewrite map_map. reflexivity.
    + apply Forall_map, Forall_forall. intros r Hr.
      apply filter_In in Hr. exact (proj2 Hr).
  - intros [= <-]. cbn. split; [reflexivity|]. split; [reflexivity|].
    constructor.
Qed.

End EndpointsMore.

(** An upload and a URL in the working world. *)
Lemma endpoints_agree_on_same_bytes_witness :
  serve (fun z : Z => z) (fun x : float => x) (PostExtract working tt) =
  serve (fun z : Z => z) (fun x : float => x) (PostExtractUrl working []).
Proof.
  apply (@endpoints_agree_on_same_bytes Z (fun z : Z => z)
           (fun x : float => x) working
           (PostExtract working tt) (PostExtractUrl working []) tt).
  - apply upload_delivers. reflexivity.
  - exact (@fetch_delivers Z working [] tt eq_refl eq_refl eq_refl).
Defined.

(** A recognition call that is cancelled. *)
Lemma base_exception_propagates_witness :
  serve (fun z : Z => z) (fun x : float => x) (PostExtract interrupted tt) =
  Raise (BaseException task_cancelled).
Proof.
  apply (@base_exception_propagates Z (fun z : Z => z) (fun x : float => x)
           interrupted (PostExtract interrupted tt) task_cancelled).
  eapply upload_raises; [reflexivity|].
  eapply (@predict_raises Z interrupted tt _ tt tt tt); reflexivity.
Defined.

(** The response to an upload in the working world. *)
Lemma response_is_consistent_witness :
  exists resp : HttpResponse,
    serve (fun z : Z => z) (fun x : float => x)
          (PostExtract working tt) = Return resp /\
    OCRResult.extracted_text (body resp) =
      join newline (OCRResult.lines (body resp)) /\
    map Detail.text (OCRResult.details (body resp)) =
      OCRResult.lines (body resp) /\
    Forall (fun line => has_visible line = true)
           (OCRResult.lines (body resp)).
Proof.
  eexists. split; [vm_compute; reflexivity|].
  apply (@response_is_consistent Z (fun z : Z => z) (fun x : float => x)
           working (PostExtract working tt)).
  vm_compute. reflexivity.
Defined.

(** * The handlers in full: properties *)

(** ** [parse_ocr_result] when [int()] may raise *)

Lemma comprehension_returns {A B : Type} (f : A -> Py B) (g : A -> B)
      (l : list A) :
  (forall x, In x l -> f x = Return (g x)) ->
  Full.comprehension f l = Return (map g l).
Proof.
  induction l as [|x l IH]; intros H; [reflexivity|].
  cbn [Full.comprehension map].
  rewrite (H x) by (left; reflexivity). cbn [bind].
  rewrite IH by (intros y Hy; apply H; right; exact Hy).
  reflexivity.
Qed.

Lemma comprehension_raise_inv {A B : Type} (f : A -> Py B) (l : list A)
      (e : exn) :
  Full.comprehension f l = Raise e -> exists x, In x l /\ f x = Raise e.
Proof.
  induction l as [|x l IH]; [discriminate|].
  cbn [Full.comprehension]. destruct (f x) as [y|e1] eqn:E; cbn [bind].
  - destruct (Full.comprehension f l) as [ys|e2]; cbn [bind]; [discriminate|].
    intros [= ->]. destruct (IH eq_refl) as (x' & Hin & Hx).
    exists x'. split; [right; exact Hin | exact Hx].
  - intros [= ->]. exists x. split; [left; reflexivity | exact E].
Qed.

Lemma for_each_ext_in {A S : Type} (f g : S -> A -> Py S) (l : list A)
      (st : S) :
  (forall st' x, In x l -> f st' x = g st' x) ->
  for_each f l st = for_each g l st.
Proof.
  revert st; induction l as [|x l IH]; intros st H; [reflexivity|].
  cbn [for_each]. rewrite (H st x) by (left; reflexivity).
  destruct (g st x) as [st'|e]; cbn [bind]; [|reflexivity].
  apply IH. intros st'' y Hy. apply H. right. exact Hy.
Qed.

Lemma for_each_raise_inv {A S : Type} (body : S -> A -> Py S) (l : list A)
      (st : S) (e : exn) :
  for_each body l st = Raise e ->
  exists st' x, In x l /\ body st' x = Raise e.
Proof.
  revert st; induction l as [|x l IH]; intros st; [discriminate|].
  cbn [for_each]. destruct (body st x) as [st1|e1] eqn:E; cbn [bind].
  - intros H. destruct (IH _ H) as (st' & y & Hy & Hb).
    exists st', y. split; [right; exact Hy | exact Hb].
  - intros [= ->]. exists st, x. split; [left; reflexivity | exact E].
Qed.

Lemma forallb_nth {A : Type} (P : list A -> bool) (l : list (list A))
      (i : nat) :
  P [] = true -> forallb P l = true -> P (nth i l []) = true.
Proof.
  intros Hnil Hl. destruct (Nat.lt_ge_cases i (length l)) as [H|H].
  - rewrite forallb_forall in Hl. apply Hl. apply nth_In. exact H.
  - rewrite nth_overflow by exact H. exact Hnil.
Qed.

Lemma nth_In_nonempty {A : Type} (l : list (list A)) (i : nat) (x : A) :
  In x (nth i l []) -> In (nth i l []) l.
Proof.
  intros Hx. destruct (Nat.lt_ge_cases i (length l)) as [H|H].
  - apply nth_In. exact H.
  - rewrite nth_overflow in Hx by exact H. contradiction.
Qed.

Section FullNormalizer.

Variable coord : Type.
Variable int : coord -> Py Z.
Variable round4 : float -> float.

Lemma converts_int (c : coord) :
  Full.converts int c = true -> int c = Return (Full.int_value int c).
Proof.
  unfold Full.converts, Full.int_value.
  destruct (int c); [reflexivity | discriminate].
Qed.

Lemma convert_polygon (poly : polygon coord) :
  forallb (forallb (Full.converts int)) poly = true ->
  Full.comprehension (Full.comprehension int) poly =
  Return (map (map (Full.int_value int)) poly).
Proof.
  intros H. apply comprehension_returns. intros point Hpoint.
  apply comprehension_returns. intros c Hc. apply converts_int.
  rewrite forallb_forall in H. specialize (H point Hpoint).
  rewrite forallb_forall in H. apply H. exact Hc.
Qed.

Lemma region_body_defined (scores : list float)
      (polys : list (polygon coord)) (st : locals) (it : nat * str) :
  forallb (forallb (Full.converts int)) (nth (fst it) polys []) = true ->
  Full.region_body int round4 scores polys st it =
  region_body (Full.int_value int) round4 scores polys st it.
Proof.
  destruct it as [i text]. cbn [fst]. intros H.
  unfold Full.region_body, region_body.
  rewrite !getitem_default. cbn [bind].
  destruct (truthy (strip (correct_tamil_text text))); [|reflexivity].
  destruct (nth i polys []) as [|point poly] eqn:E; [reflexivity|].
  rewrite (convert_polygon _ H). reflexivity.
Qed.

Lemma region_body_raise_inv (scores : list float)
      (polys : list (polygon coord)) (st : locals) (it : nat * str)
      (e : exn) :
  Full.region_body int round4 scores polys st it = Raise e ->
  exists point c,
    In point (nth (fst it) polys []) /\ In c point /\ int c = Raise e.
Proof.
  destruct it as [i text]. cbn [fst]. unfold Full.region_body.
  rewrite !getitem_default. cbn [bind].
  destruct (truthy (strip (correct_tamil_text text))); [|discriminate].
  destruct (nth i polys []) as [|point poly] eqn:E; [discriminate|].
  destruct (Full.comprehension (Full.comprehension int) (point :: poly))
    as [ints|e1] eqn:E1; cbn [bind]; [discriminate|].
  intros [= ->].
  apply comprehension_raise_inv in E1. destruct E1 as (pt & Hpt & E2).
  apply comprehension_raise_inv in E2. destruct E2 as (c & Hc & E3).
  exists pt, c. auto.
Qed.

Lemma parse_ocr_result_defined
      (result : option (list (page_result coord))) :
  forallb (forallb (forallb (Full.converts int))) (Full.polys_of result)
    = true ->
  Full.parse_ocr_result int round4 result =
  parse_ocr_result (Full.int_value int) round4 result.
Proof.
  destruct result as [[|page pages]|]; try reflexivity.
  cbn [Full.polys_of]. intros H.
  unfold Full.parse_ocr_result, parse_ocr_result. cbv zeta.
  rewrite (for_each_ext_in
             (Full.region_body int round4 (dict_get (rec_scores page) [])
                               (dict_get (rec_polys page) []))
             (region_body (Full.int_value int) round4
                          (dict_get (rec_scores page) [])
                          (dict_get (rec_polys page) []))).
  - reflexivity.
  - intros st it _. apply region_body_defined.
    apply forallb_nth; [reflexivity | exact H].
Qed.

Lemma conversion_defined_same_result_aux
      (result : option (list (page_result coord))) :
  forallb (forallb (forallb (Full.converts int))) (Full.polys_of result)
    = true ->
  Full.parse_ocr_result int round4 result =
  Return (join newline (map corrected (filter retained (regions result))),
          map corrected (filter retained (regions result)),
          mean (map region_confidence (filter retained (regions result))),
          map (detail_of (Full.int_value int) round4)
              (filter retained (regions result))).
Proof.
  intros H. rewrite (parse_ocr_result_defined _ H).
  apply parse_ocr_result_spec.
Qed.


(** [parse_ocr_result] raises nothing of its own: an exception that leaves
    it was raised by [int()] on a coordinate of a polygon of the first
    page. *)
Theorem normalising_raises_only_from_int
        (result : option (list (page_result coord))) (e : exn) :
  Full.parse_ocr_result int round4 result = Raise e ->
  exists poly point c,
    In poly (Full.polys_of result) /\ In point poly /\ In c point /\
    int c = Raise e.
Proof.
  destruct result as [[|page pages]|]; try discriminate.
  unfold Full.parse_ocr_result. cbv zeta.
  destruct (for_each _ _ _) as [st|e1] eqn:E; cbn [bind]; [discriminate|].
  intros [= ->]. apply for_each_raise_inv in E.
  destruct E as (st' & it & _ & Hb).
  apply region_body_raise_inv in Hb. destruct Hb as (point & c & Hp & Hc & Hi).
  exists (nth (fst it) (dict_get (rec_polys page) []) []), point, c.
  cbn [Full.polys_of]. repeat split; try assumption.
  apply (nth_In_nonempty _ _ _ Hp).
Qed.

End FullNormalizer.


(** The polygon with a NaN coordinate. *)
Lemma normalising_raises_only_from_int_witness :
  exists (poly : polygon (option Z)) point c,
    In poly (Full.polys_of nan_polygon_output) /\ In point poly /\
    In c point /\ int_or_nan c = Raise (Exception cannot_convert_nan).
Proof.
  apply (@normalising_raises_only_from_int
           (option Z) int_or_nan (fun x : float => x) nan_polygon_output
           (Exception cannot_convert_nan)).
  vm_compute. reflexivity.
Defined.

(** ** The endpoints when [int()] may raise and serialisation may fail *)

Section FullEndpoints.

Variable coord : Type.
Variable int : coord -> Py Z.
Variable round4 : float -> float.
Variable ext : Externals coord.
Variable renders : OCRResult.t -> bool.

Lemma full_handler_try (req : request ext) :
  Full.handler int round4 req =
  try_except (Full.try_block int round4 req) failure.
Proof. destruct req; reflexivity. Qed.

Lemma full_recognise_raises (contents : bytes ext) (e : exn) :
  recognise_raises ext contents e ->
  Full.recognise int round4 ext contents = Raise e.
Proof.
  unfold Full.recognise.
  intros [H | image H1 H2 | image rgb H1 H2 H3
          | image rgb image_np H1 H2 H3 H4].
  - rewrite H. reflexivity.
  - rewrite H1. cbn [bind]. rewrite H2. reflexivity.
  - rewrite H1. cbn [bind]. rewrite H2. cbn [bind]. rewrite H3.
    reflexivity.
  - rewrite H1. cbn [bind]. rewrite H2. cbn [bind]. rewrite H3.
    cbn [bind]. rewrite H4. reflexivity.
Qed.

Lemma full_try_block_raises (req : request ext) (e : exn) :
  request_raises req e -> Full.try_block int round4 req = Raise e.
Proof.
  intros [file e' H | file contents e' H1 H2 | url e' H | url e' H1 H2
          | url response e' H1 H2 H3 | url response e' H1 H2 H3 H4];
    cbn [Full.try_block].
  - unfold Full.extract_text_try. rewrite H. reflexivity.
  - unfold Full.extract_text_try. rewrite H1. cbn [bind].
    apply full_recognise_raises. exact H2.
  - unfold Full.extract_from_url_try. rewrite H. reflexivity.
  - unfold Full.extract_from_url_try. rewrite H1. cbn [bind]. rewrite H2.
    reflexivity.
  - unfold Full.extract_from_url_try. rewrite H1. cbn [bind]. rewrite H2.
    cbn [bind]. rewrite H3. reflexivity.
  - unfold Full.extract_from_url_try. rewrite H1. cbn [bind]. rewrite H2.
    cbn [bind]. rewrite H3. cbn [bind].
    apply full_recognise_raises. exact H4.
Qed.

Lemma full_try_block_delivers (req : request ext) (contents : bytes ext) :
  request_delivers req contents ->
  Full.try_block int round4 req = Full.recognise int round4 ext contents.
Proof.
  intros [file contents' H | url response H1 H2 H3]; cbn [Full.try_block].
  - unfold Full.extract_text_try. rewrite H. reflexivity.
  - unfold Full.extract_from_url_try. rewrite H1. cbn [bind]. rewrite H2.
    cbn [bind]. rewrite H3. reflexivity.
Qed.

Lemma full_recognise_answers (contents : bytes ext)
      (result : option (list (page_result coord))) :
  engine_answers ext contents result ->
  Full.recognise int round4 ext contents =
  (r <- Full.parse_ocr_result int round4 result ;;
   let '(extracted_text, lines, avg_confidence, details) := r in
   Return
     {| OCRResult.success := true;
        OCRResult.extracted_text := extracted_text;
        OCRResult.lines := lines;
        OCRResult.confidence :=
          to_float (round_number round4 avg_confidence);
        OCRResult.details := details;
        OCRResult.error := None |}).
Proof.
  intros [image rgb image_np H1 H2 H3 H4]. unfold Full.recognise.
  rewrite H1. cbn [bind]. rewrite H2. cbn [bind]. rewrite H3. cbn [bind].
  rewrite H4. reflexivity.
Qed.

Lemma full_recognise_raise_inv (contents : bytes ext) (e : exn) :
  Full.recognise int round4 ext contents = Raise e ->
  recognise_raises ext contents e \/
  exists result, engine_answers ext contents result /\
                 Full.parse_ocr_result int round4 result = Raise e.
Proof.
  unfold Full.recognise.
  destruct (Image_open ext contents) as [image|e1] eqn:H1; cbn [bind];
    [|intros [= <-]; left; apply open_raises; exact H1].
  destruct (to_rgb ext image) as [rgb|e2] eqn:H2; cbn [bind];
    [|intros [= <-]; left; eapply convert_raises; eassumption].
  destruct (np_array ext rgb) as [image_np|e3] eqn:H3; cbn [bind];
    [|intros [= <-]; left; eapply array_raises; eassumption].
  destruct (ocr_predict ext image_np) as [result|e4] eqn:H4; cbn [bind];
    [|intros [= <-]; left; eapply predict_raises; eassumption].
  destruct (Full.parse_ocr_result int round4 result)
    as [[[[text lines] avg] details]|e5] eqn:H5; cbn [bind];
    [discriminate|].
  intros [= <-]. right. exists result. split; [|exact H5].
  eapply engine_answer; eassumption.
Qed.

Lemma full_recognise_return (contents : bytes ext) (r : OCRResult.t) :
  Full.recognise int round4 ext contents = Return r ->
  OCRResult.success r = true /\ OCRResult.error r = None.
Proof.
  unfold Full.recognise.
  destruct (Image_open ext contents) as [image|e1]; cbn [bind];
    [|discriminate].
  destruct (to_rgb ext image) as [rgb|e2]; cbn [bind]; [|discriminate].
  destruct (np_array ext rgb) as [image_np|e3]; cbn [bind]; [|discriminate].
  destruct (ocr_predict ext image_np) as [result|e4]; cbn [bind];
    [|discriminate].
  destruct (Full.parse_ocr_result int round4 result)
    as [[[[text lines] avg] details]|e5]; cbn [bind]; [|discriminate].
  intros [= <-]. split; reflexivity.
Qed.

Lemma full_try_block_raise_inv (req : request ext) (e : exn) :
  Full.try_block int round4 req = Raise e ->
  Full.handling_raises int round4 req e.
Proof.
  destruct req as [file|url]; cbn [Full.try_block].
  - unfold Full.extract_text_try.
    destruct (file_read ext file) as [contents|e1] eqn:H1; cbn [bind];
      [|intros [= <-]; apply Full.stage_raises, read_raises; exact H1].
    intros H. apply full_recognise_raise_inv in H.
    destruct H as [H|(result & Ha & Hp)].
    + apply Full.stage_raises. eapply upload_raises; eassumption.
    + eapply Full.normalising_raises; try eassumption.
      apply upload_delivers. exact H1.
  - unfold Full.extract_from_url_try.
    destruct (import_httpx ext) as [[]|e1] eqn:H1; cbn [bind];
      [|intros [= <-]; apply Full.stage_raises, import_raises; exact H1].
    destruct (client_get ext url) as [response|e2] eqn:H2; cbn [bind];
      [|intros [= <-]; apply Full.stage_raises, get_raises; assumption].
    destruct (raise_for_status ext response) as [[]|e3] eqn:H3; cbn [bind];
      [|intros [= <-]; apply Full.stage_raises;
        eapply status_raises; eassumption].
    intros H. apply full_recognise_raise_inv in H.
    destruct H as [H|(result & Ha & Hp)].
    + apply Full.stage_raises. eapply fetched_raises; eassumption.
    + eapply Full.normalising_raises; try eassumption.
      apply fetch_delivers; assumption.
Qed.

Lemma full_handling_raises_raise (req : request ext) (e : exn) :
  Full.handling_raises int round4 req e ->
  Full.try_block int round4 req = Raise e.
Proof.
  intros [H | contents result Hd Ha Hp].
  - apply full_try_block_raises. exact H.
  - rewrite (full_try_block_delivers Hd), (full_recognise_answers Ha), Hp.
    reflexivity.
Qed.

Lemma full_try_block_return (req : request ext) (r : OCRResult.t) :
  Full.try_block int round4 req = Return r ->
  OCRResult.success r = true /\ OCRResult.error r = None.
Proof.
  destruct req as [file|url]; cbn [Full.try_block].
  - unfold Full.extract_text_try.
    destruct (file_read ext file) as [contents|e1]; cbn [bind];
      [|discriminate].
    apply full_recognise_return.
  - unfold Full.extract_from_url_try.
    destruct (import_httpx ext) as [[]|e1]; cbn [bind]; [|discriminate].
    destruct (client_get ext url) as [response|e2]; cbn [bind];
      [|discriminate].
    destruct (raise_for_status ext response) as [[]|e3]; cbn [bind];
      [|discriminate].
    apply full_recognise_return.
Qed.

(** C7 (amended): when ingestion, fetching or the recognition call raises
    an instance of [Exception] while a request to either extraction endpoint
    is handled, the handler returns a body with [success] false, [error] the
    exception's text (not null), empty [extracted_text], [lines] and
    [details], and [confidence] 0, and the endpoint answers with status 200
    and that body whenever the body serialises (500 otherwise). *)
Theorem exception_is_reported (req : request ext) (msg : str) :
  request_raises req (Exception msg) ->
  let failed :=
    {| OCRResult.success := false;
       OCRResult.extracted_text := [];
       OCRResult.lines := [];
       OCRResult.confidence := 0%float;
       OCRResult.details := [];
       OCRResult.error := Some msg |} in
  Full.handler int round4 req = Return failed /\
  Full.serve int round4 renders req =
  Return (if renders failed then Full.Json 200 failed
          else Full.InternalServerError).
Proof.
  intros H. apply full_try_block_raises in H. cbv zeta.
  unfold Full.serve. rewrite full_handler_try, H. split; reflexivity.
Qed.

(** When the image bytes arrive and decode, the engine answers, and
    [int()] is defined on every coordinate of the polygons of the first
    page, the handler returns [success] true, no [error], the lines, text
    and details of [parse_ocr_result] and its mean rounded to four digits,
    and the endpoint answers with status 200 and that body whenever the
    body serialises (500 otherwise). *)
Theorem success_is_reported (req : request ext) (contents : bytes ext)
        (result : option (list (page_result coord))) :
  request_delivers req contents ->
  engine_answers ext contents result ->
  forallb (forallb (forallb (Full.converts int))) (Full.polys_of result)
    = true ->
  Full.handler int round4 req =
    Return (success_body (Full.int_value int) round4 result) /\
  Full.serve int round4 renders req =
  Return (if renders (success_body (Full.int_value int) round4 result)
          then Full.Json 200
                 (success_body (Full.int_value int) round4 result)
          else Full.InternalServerError).
Proof.
  intros Hd Ha Hc. unfold Full.serve.
  rewrite full_handler_try, (full_try_block_delivers Hd).
  rewrite (full_recognise_answers Ha).
  rewrite (@conversion_defined_same_result_aux coord int round4 result Hc).
  split; reflexivity.
Qed.

(** An [Exception] that [int()] raises while the result is normalised is
    reported like a failure of ingestion or recognition: the handler
    returns [success] false with the exception's text as [error] and
    nothing else. *)
Theorem normalising_failure_is_reported
        (req : request ext) (contents : bytes ext)
        (result : option (list (page_result coord))) (msg : str) :
  request_delivers req contents ->
  engine_answers ext contents result ->
  Full.parse_ocr_result int round4 result = Raise (Exception msg) ->
  Full.handler int round4 req =
  Return {| OCRResult.success := false;
            OCRResult.extracted_text := [];
            OCRResult.lines := [];
            OCRResult.confidence := 0%float;
            OCRResult.details := [];
            OCRResult.error := Some msg |}.
Proof.
  intros Hd Ha Hp.
  rewrite full_handler_try, (full_try_block_delivers Hd).
  rewrite (full_recognise_answers Ha), Hp. reflexivity.
Qed.

(** What the client receives tells what happened.  The handler returned a
    model; the client has it with status 200 if it serialises and a bare
    500 otherwise.  In the model [success] is true with no [error] exactly
    when nothing raised inside the [try], and false with [error] the text
    of the exception when ingestion, fetching, recognition or, in
    normalisation, [int()] raised an [Exception]. *)
Theorem response_tells_failure (req : request ext) (answer : Full.reply) :
  Full.serve int round4 renders req = Return answer ->
  exists r : OCRResult.t,
    Full.handler int round4 req = Return r /\
    answer = (if renders r then Full.Json 200 r
              else Full.InternalServerError) /\
    (OCRResult.success r = true /\
     OCRResult.error r = None /\
     (forall e, ~ Full.handling_raises int round4 req e)
     \/
     OCRResult.success r = false /\
     exists msg, OCRResult.error r = Some msg /\
                 Full.handling_raises int round4 req (Exception msg)).
Proof.
  unfold Full.serve. rewrite full_handler_try.
  destruct (Full.try_block int round4 req) as [r|[m|m]] eqn:E;
    cbn [try_except failure Full.respond]; [| |discriminate].
  - intros [= <-]. exists r. split; [reflexivity|]. split; [reflexivity|].
    left. destruct (full_try_block_return _ E) as [Hs He].
    split; [exact Hs|]. split; [exact He|].
    intros e H. apply full_handling_raises_raise in H.
    rewrite E in H. discriminate.
  - intros [= <-]. eexists. split; [reflexivity|]. split; [reflexivity|].
    right. split; [reflexivity|]. exists m. split; [reflexivity|].
    apply full_try_block_raise_inv. exact E.
Qed.

End FullEndpoints.

(** An upload that is not a decodable image, an instance of C7. *)
Lemma exception_is_reported_witness :
  Full.handler (fun z : Z => Return z) (fun x : float => x)
               (PostExtract undecodable tt) =
    Return {| OCRResult.success := false;
              OCRResult.extracted_text := [];
              OCRResult.lines := [];
              OCRResult.confidence := 0%float;
              OCRResult.details := [];
              OCRResult.error := Some cannot_identify |} /\
  Full.serve (fun z : Z => Return z) (fun x : float => x) (fun _ => true)
             (PostExtract undecodable tt) =
    Return (Full.Json 200
              {| OCRResult.success := false;
                 OCRResult.extracted_text := [];
                 OCRResult.lines := [];
                 OCRResult.confidence := 0%float;
                 OCRResult.details := [];
                 OCRResult.error := Some cannot_identify |}).
Proof.
  assert (H : request_raises (PostExtract undecodable tt)
                             (Exception cannot_identify)).
  { eapply upload_raises; [reflexivity|]. apply open_raises. reflexivity. }
  exact (@exception_is_reported
           Z (fun z : Z => Return z) (fun x : float => x) undecodable
           (fun _ => true) (PostExtract undecodable tt) cannot_identify H).
Defined.

(** C7 as stated fails: a recognition call that raises an exception which
    is not an [Exception] gets no response at all, the exception leaves the
    handler. *)
Lemma cancelled_recognition_not_reported :
  ~ Full.every_raise_reported
      (fun z : Z => Return z) (fun x : float => x) (fun _ => true)
      (PostExtract interrupted tt).
Proof.
  unfold Full.every_raise_reported. intros H.
  destruct (H (BaseException task_cancelled)) as [msg Hmsg].
  - eapply upload_raises; [reflexivity|].
    eapply (@predict_raises Z interrupted tt _ tt tt tt); reflexivity.
  - vm_compute in Hmsg. discriminate Hmsg.
Qed.

(** An upload in the working world. *)
Lemma success_is_reported_witness :
  Full.handler (fun z : Z => Return z) (fun x : float => x)
               (PostExtract working tt) =
    Return (success_body
              (Full.int_value (fun z : Z => Return z)) (fun x : float => x)
              (one_region tamilnadu_misread 0.92%float None)) /\
  Full.serve (fun z : Z => Return z) (fun x : float => x) (fun _ => true)
             (PostExtract working tt) =
    Return (Full.Json 200
              (success_body
                 (Full.int_value (fun z : Z => Return z))
                 (fun x : float => x)
                 (one_region tamilnadu_misread 0.92%float None))).
Proof.
  refine (@success_is_reported
            Z (fun z : Z => Return z) (fun x : float => x) working
            (fun _ => true) (PostExtract working tt) tt
            (one_region tamilnadu_misread 0.92%float None) _ _ _).
  - apply upload_delivers. reflexivity.
  - eapply (@engine_answer Z working tt _ tt tt tt); reflexivity.
  - reflexivity.
Defined.

(** An upload whose recognised polygon has a NaN coordinate. *)
Lemma normalising_failure_is_reported_witness :
  Full.handler int_or_nan (fun x : float => x) (PostExtract nan_polygon tt) =
  Return {| OCRResult.success := false;
            OCRResult.extracted_text := [];
            OCRResult.lines := [];
            OCRResult.confidence := 0%float;
            OCRResult.details := [];
            OCRResult.error := Some cannot_convert_nan |}.
Proof.
  refine (@normalising_failure_is_reported
            (option Z) int_or_nan (fun x : float => x) nan_polygon
            (PostExtract nan_polygon tt) tt nan_polygon_output
            cannot_convert_nan _ _ _).
  - apply upload_delivers. reflexivity.
  - eapply (@engine_answer (option Z) nan_polygon tt _ tt tt tt);
      reflexivity.
  - vm_compute. reflexivity.
Defined.

(** The answer to that upload. *)
Lemma response_tells_failure_witness :
  exists r : OCRResult.t,
    Full.handler int_or_nan (fun x : float => x)
                 (PostExtract nan_polygon tt) = Return r /\
    Full.Json 200
      {| OCRResult.success := false;
         OCRResult.extracted_text := [];
         OCRResult.lines := [];
         OCRResult.confidence := 0%float;
         OCRResult.details := [];
         OCRResult.error := Some cannot_convert_nan |} =
    (if (fun _ : OCRResult.t => true) r then Full.Json 200 r
     else Full.InternalServerError) /\
    (OCRResult.success r = true /\
     OCRResult.error r = None /\
     (forall e, ~ Full.handling_raises int_or_nan (fun x : float => x)
                    (PostExtract nan_polygon tt) e)
     \/
     OCRResult.success r = false /\
     exists msg, OCRResult.error r = Some msg /\
                 Full.handling_raises int_or_nan (fun x : float => x)
                   (PostExtract nan_polygon tt) (Exception msg)).
Proof.
  refine (@response_tells_failure
            (option Z) int_or_nan (fun x : float => x) nan_polygon
            (fun _ => true) (PostExtract nan_polygon tt) _ _).
  vm_compute. reflexivity.
Defined.
